(** * gps.py: the client-side decoder of the GPS daemon's wire protocol

    A shallow embedding of [src/gps/gps.py]: the validity bitmask, the fix
    snapshot, the session object, the legacy (comma-delimited) decoder
    [__oldstyle_unpack], the structured-record shim [__oldstyle_shim] and the
    dispatcher [read], followed by the properties of the decoders. *)

From Stdlib Require Import ZArith String Ascii List Bool Lia.
From Stdlib Require Import Floats.PrimFloat.
From stdpp Require Import base option list gmap strings.

Set Warnings "-register-all".
Local Open Scope string_scope.
Local Open Scope Z_scope.

(** ** Python values

    The decoders are dynamically typed: a fix field holds a float after a
    legacy report and whatever the tokenizer produced after a structured one.
    Values are the JSON-shaped subset of Python's: [str] and [unicode] are
    one string type, a [dict] is a finite map with string keys. *)

Inductive pyval : Type :=
| PNone
| PBool (b : bool)
| PInt (z : Z)
| PFloat (f : float)
| PStr (s : string)
| PList (l : list pyval)
| PDict (d : gmap string pyval).

(** [NaN = float('nan')] *)
Definition NaN : pyval := PFloat nan.

(** [def isnan(x): return str(x) == 'nan'] : the text of a float is ['nan']
    exactly for a not-a-number, the text of a string is the string itself, and
    no other value prints as ['nan']. *)
Definition isnan (x : pyval) : bool :=
  match x with
  | PFloat f => is_nan f
  | PStr s => String.eqb s "nan"
  | _ => false
  end.

(** Truth value of a Python object, as tested by [if x:]. *)
Definition truthy (x : pyval) : bool :=
  match x with
  | PNone => false
  | PBool b => b
  | PInt z => negb (z =? 0)
  | PFloat f => negb (is_zero f)
  | PStr s => negb (String.eqb s "")
  | PList l => match l with [] => false | _ => true end
  | PDict d => negb (bool_decide (d = ∅))
  end.

(** [type(x) == type(0.0)] *)
Definition is_float (x : pyval) : bool :=
  match x with PFloat _ => true | _ => false end.

(** Exceptions the decoders can raise. [json_error] is the tokenizer's. *)
Inductive exn : Type :=
| IndexError | ValueError | KeyError | TypeError | AttributeError
| UnicodeEncodeError | StopIteration | json_error.

Inductive outcome (A : Type) : Type :=
| Return (a : A)
| Raise (e : exn).
Arguments Return {A} a.
Arguments Raise {A} e.

(** ** Validity bitmask *)

Definition ONLINE_SET : Z := Z.shiftl 1 1.
Definition TIME_SET : Z := Z.shiftl 1 2.
Definition TIMERR_SET : Z := Z.shiftl 1 3.
Definition LATLON_SET : Z := Z.shiftl 1 4.
Definition ALTITUDE_SET : Z := Z.shiftl 1 5.
Definition SPEED_SET : Z := Z.shiftl 1 6.
Definition TRACK_SET : Z := Z.shiftl 1 7.
Definition CLIMB_SET : Z := Z.shiftl 1 8.
Definition STATUS_SET : Z := Z.shiftl 1 9.
Definition MODE_SET : Z := Z.shiftl 1 10.
Definition DOP_SET : Z := Z.shiftl 1 11.
Definition HERR_SET : Z := Z.shiftl 1 12.
Definition VERR_SET : Z := Z.shiftl 1 13.
Definition ATTITUDE_SET : Z := Z.shiftl 1 14.
Definition SATELLITE_SET : Z := Z.shiftl 1 15.
Definition SPEEDERR_SET : Z := Z.shiftl 1 16.
Definition TRACKERR_SET : Z := Z.shiftl 1 17.
Definition CLIMBERR_SET : Z := Z.shiftl 1 18.
Definition DEVICE_SET : Z := Z.shiftl 1 19.
Definition DEVICELIST_SET : Z := Z.shiftl 1 20.
Definition DEVICEID_SET : Z := Z.shiftl 1 21.
Definition RTCM2_SET : Z := Z.shiftl 1 22.
Definition RTCM3_SET : Z := Z.shiftl 1 23.
Definition AIS_SET : Z := Z.shiftl 1 24.
Definition PACKET_SET : Z := Z.shiftl 1 25.
Definition SUBFRAME_SET : Z := Z.shiftl 1 26.
Definition GST_SET : Z := Z.shiftl 1 27.
Definition VERSION_SET : Z := Z.shiftl 1 28.
Definition POLICY_SET : Z := Z.shiftl 1 29.
Definition ERROR_SET : Z := Z.shiftl 1 30.

Definition STATUS_NO_FIX : Z := 0.
Definition MODE_NO_FIX : Z := 1.
Definition MODE_2D : Z := 2.
Definition MODE_3D : Z := 3.

(** ** The fix snapshot, a satellite, and the session object *)

Record gpsfix : Type := Build_gpsfix {
  mode : pyval;
  time : pyval;
  ept : pyval;
  latitude : pyval;
  longitude : pyval;
  epx : pyval;
  epy : pyval;
  altitude : pyval;  (* Meters *)
  epv : pyval;
  track : pyval;  (* Degrees from true north *)
  speed : pyval;  (* Knots *)
  climb : pyval;  (* Meters per second *)
  epd : pyval;
  eps : pyval;
  epc : pyval
}.

Definition set_mode (v : pyval) (g : gpsfix) : gpsfix :=
  {| mode := v; time := time g; ept := ept g; latitude := latitude g; longitude := longitude g;
     epx := epx g; epy := epy g; altitude := altitude g; epv := epv g; track := track g;
     speed := speed g; climb := climb g; epd := epd g; eps := eps g; epc := epc g |}.

Definition set_time (v : pyval) (g : gpsfix) : gpsfix :=
  {| mode := mode g; time := v; ept := ept g; latitude := latitude g; longitude := longitude g;
     epx := epx g; epy := epy g; altitude := altitude g; epv := epv g; track := track g;
     speed := speed g; climb := climb g; epd := epd g; eps := eps g; epc := epc g |}.

Definition set_ept (v : pyval) (g : gpsfix) : gpsfix :=
  {| mode := mode g; time := time g; ept := v; latitude := latitude g;
     longitude := longitude g; epx := epx g; epy := epy g; altitude := altitude g;
     epv := epv g; track := track g; speed := speed g; climb := climb g; epd := epd g;
     eps := eps g; epc := epc g |}.

Definition set_latitude (v : pyval) (g : gpsfix) : gpsfix :=
  {| mode := mode g; time := time g; ept := ept g; latitude := v; longitude := longitude g;
     epx := epx g; epy := epy g; altitude := altitude g; epv := epv g; track := track g;
     speed := speed g; climb := climb g; epd := epd g; eps := eps g; epc := epc g |}.

Definition set_longitude (v : pyval) (g : gpsfix) : gpsfix :=
  {| mode := mode g; time := time g; ept := ept g; latitude := latitude g; longitude := v;
     epx := epx g; epy := epy g; altitude := altitude g; epv := epv g; track := track g;
     speed := speed g; climb := climb g; epd := epd g; eps := eps g; epc := epc g |}.

Definition set_epx (v : pyval) (g : gpsfix) : gpsfix :=
  {| mode := mode g; time := time g; ept := ept g; latitude := latitude g;
     longitude := longitude g; epx := v; epy := epy g; altitude := altitude g; epv := epv g;
     track := track g; speed := speed g; climb := climb g; epd := epd g; eps := eps g;
     epc := epc g |}.

Definition set_epy (v : pyval) (g : gpsfix) : gpsfix :=
  {| mode := mode g; time := time g; ept := ept g; latitude := latitude g;
     longitude := longitude g; epx := epx g; epy := v; altitude := altitude g; epv := epv g;
     track := track g; speed := speed g; climb := climb g; epd := epd g; eps := eps g;
     epc := epc g |}.

Definition set_altitude (v : pyval) (g : gpsfix) : gpsfix :=
  {| mode := mode g; time := time g; ept := ept g; latitude := latitude g;
     longitude := longitude g; epx := epx g; epy := epy g; altitude := v; epv := epv g;
     track := track g; speed := speed g; climb := climb g; epd := epd g; eps := eps g;
     epc := epc g |}.

Definition set_epv (v : pyval) (g : gpsfix) : gpsfix :=
  {| mode := mode g; time := time g; ept := ept g; latitude := latitude g;
     longitude := longitude g; epx := epx g; epy := epy g; altitude := altitude g; epv := v;
     track := track g; speed := speed g; climb := climb g; epd := epd g; eps := eps g;
     epc := epc g |}.

Definition set_track (v : pyval) (g : gpsfix) : gpsfix :=
  {| mode := mode g; time := time g; ept := ept g; latitude := latitude g;
     longitude := longitude g; epx := epx g; epy := epy g; altitude := altitude g;
     epv := epv g; track := v; speed := speed g; climb := climb g; epd := epd g; eps := eps g;
     epc := epc g |}.

Definition set_speed (v : pyval) (g : gpsfix) : gpsfix :=
  {| mode := mode g; time := time g; ept := ept g; latitude := latitude g;
     longitude := longitude g; epx := epx g; epy := epy g; altitude := altitude g;
     epv := epv g; track := track g; speed := v; climb := climb g; epd := epd g; eps := eps g;
     epc := epc g |}.

Definition set_climb (v : pyval) (g : gpsfix) : gpsfix :=
  {| mode := mode g; time := time g; ept := ept g; latitude := latitude g;
     longitude := longitude g; epx := epx g; epy := epy g; altitude := altitude g;
     epv := epv g; track := track g; speed := speed g; climb := v; epd := epd g; eps := eps g;
     epc := epc g |}.

Definition set_epd (v : pyval) (g : gpsfix) : gpsfix :=
  {| mode := mode g; time := time g; ept := ept g; latitude := latitude g;
     longitude := longitude g; epx := epx g; epy := epy g; altitude := altitude g;
     epv := epv g; track := track g; speed := speed g; climb := climb g; epd := v;
     eps := eps g; epc := epc g |}.

Definition set_eps (v : pyval) (g : gpsfix) : gpsfix :=
  {| mode := mode g; time := time g; ept := ept g; latitude := latitude g;
     longitude := longitude g; epx := epx g; epy := epy g; altitude := altitude g;
     epv := epv g; track := track g; speed := speed g; climb := climb g; epd := epd g;
     eps := v; epc := epc g |}.

Definition set_epc (v : pyval) (g : gpsfix) : gpsfix :=
  {| mode := mode g; time := time g; ept := ept g; latitude := latitude g;
     longitude := longitude g; epx := epx g; epy := epy g; altitude := altitude g;
     epv := epv g; track := track g; speed := speed g; climb := climb g; epd := epd g;
     eps := eps g; epc := v |}.

Record satellite : Type := Build_satellite {
  PRN : pyval;
  elevation : pyval;
  azimuth : pyval;
  ss : pyval;
  used : pyval
}.

Record gps : Type := Build_gps {
  online : pyval;  (* NZ if GPS on, zero if not *)
  valid : Z;
  fix_ : gpsfix;  (* self.fix *)
  status : Z;
  utc : pyval;
  satellites_used : Z;  (* Satellites used in last fix *)
  xdop : pyval;
  ydop : pyval;
  vdop : pyval;
  tdop : pyval;
  pdop : pyval;
  hdop : pyval;
  gdop : pyval;
  epe : pyval;
  satellites : list satellite;  (* satellite objects in view *)
  gps_id : pyval;
  driver_mode : pyval;
  baudrate : pyval;
  stopbits : pyval;
  cycle : pyval;
  mincycle : pyval;
  device : pyval;
  devices : list pyval;
  version : pyval;
  newstyle : bool;
  self_epy : option pyval;  (* self.epy, created by the legacy fix report *)
  path : option pyval;  (* created by a DEVICE record *)
  activated : option pyval;  (* created by a DEVICE record *)
  serialmode : option pyval;  (* created by a DEVICE record *)
  data : option (gmap string pyval);  (* self.data, created by unpack *)
  response : option string  (* self.response, created by the transport *)
}.

Definition set_online (v : pyval) (s : gps) : gps :=
  {| online := v; valid := valid s; fix_ := fix_ s; status := status s; utc := utc s;
     satellites_used := satellites_used s; xdop := xdop s; ydop := ydop s; vdop := vdop s;
     tdop := tdop s; pdop := pdop s; hdop := hdop s; gdop := gdop s; epe := epe s;
     satellites := satellites s; gps_id := gps_id s; driver_mode := driver_mode s;
     baudrate := baudrate s; stopbits := stopbits s; cycle := cycle s; mincycle := mincycle s;
     device := device s; devices := devices s; version := version s; newstyle := newstyle s;
     self_epy := self_epy s; path := path s; activated := activated s;
     serialmode := serialmode s; data := data s; response := response s |}.

Definition set_valid (v : Z) (s : gps) : gps :=
  {| online := online s; valid := v; fix_ := fix_ s; status := status s; utc := utc s;
     satellites_used := satellites_used s; xdop := xdop s; ydop := ydop s; vdop := vdop s;
     tdop := tdop s; pdop := pdop s; hdop := hdop s; gdop := gdop s; epe := epe s;
     satellites := satellites s; gps_id := gps_id s; driver_mode := driver_mode s;
     baudrate := baudrate s; stopbits := stopbits s; cycle := cycle s; mincycle := mincycle s;
     device := device s; devices := devices s; version := version s; newstyle := newstyle s;
     self_epy := self_epy s; path := path s; activated := activated s;
     serialmode := serialmode s; data := data s; response := response s |}.

Definition set_fix_ (v : gpsfix) (s : gps) : gps :=
  {| online := online s; valid := valid s; fix_ := v; status := status s; utc := utc s;
     satellites_used := satellites_used s; xdop := xdop s; ydop := ydop s; vdop := vdop s;
     tdop := tdop s; pdop := pdop s; hdop := hdop s; gdop := gdop s; epe := epe s;
     satellites := satellites s; gps_id := gps_id s; driver_mode := driver_mode s;
     baudrate := baudrate s; stopbits := stopbits s; cycle := cycle s; mincycle := mincycle s;
     device := device s; devices := devices s; version := version s; newstyle := newstyle s;
     self_epy := self_epy s; path := path s; activated := activated s;
     serialmode := serialmode s; data := data s; response := response s |}.

Definition set_utc (v : pyval) (s : gps) : gps :=
  {| online := online s; valid := valid s; fix_ := fix_ s; status := status s; utc := v;
     satellites_used := satellites_used s; xdop := xdop s; ydop := ydop s; vdop := vdop s;
     tdop := tdop s; pdop := pdop s; hdop := hdop s; gdop := gdop s; epe := epe s;
     satellites := satellites s; gps_id := gps_id s; driver_mode := driver_mode s;
     baudrate := baudrate s; stopbits := stopbits s; cycle := cycle s; mincycle := mincycle s;
     device := device s; devices := devices s; version := version s; newstyle := newstyle s;
     self_epy := self_epy s; path := path s; activated := activated s;
     serialmode := serialmode s; data := data s; response := response s |}.

Definition set_satellites_used (v : Z) (s : gps) : gps :=
  {| online := online s; valid := valid s; fix_ := fix_ s; status := status s; utc := utc s;
     satellites_used := v; xdop := xdop s; ydop := ydop s; vdop := vdop s; tdop := tdop s;
     pdop := pdop s; hdop := hdop s; gdop := gdop s; epe := epe s; satellites := satellites s;
     gps_id := gps_id s; driver_mode := driver_mode s; baudrate := baudrate s;
     stopbits := stopbits s; cycle := cycle s; mincycle := mincycle s; device := device s;
     devices := devices s; version := version s; newstyle := newstyle s;
     self_epy := self_epy s; path := path s; activated := activated s;
     serialmode := serialmode s; data := data s; response := response s |}.

Definition set_xdop (v : pyval) (s : gps) : gps :=
  {| online := online s; valid := valid s; fix_ := fix_ s; status := status s; utc := utc s;
     satellites_used := satellites_used s; xdop := v; ydop := ydop s; vdop := vdop s;
     tdop := tdop s; pdop := pdop s; hdop := hdop s; gdop := gdop s; epe := epe s;
     satellites := satellites s; gps_id := gps_id s; driver_mode := driver_mode s;
     baudrate := baudrate s; stopbits := stopbits s; cycle := cycle s; mincycle := mincycle s;
     device := device s; devices := devices s; version := version s; newstyle := newstyle s;
     self_epy := self_epy s; path := path s; activated := activated s;
     serialmode := serialmode s; data := data s; response := response s |}.

Definition set_ydop (v : pyval) (s : gps) : gps :=
  {| online := online s; valid := valid s; fix_ := fix_ s; status := status s; utc := utc s;
     satellites_used := satellites_used s; xdop := xdop s; ydop := v; vdop := vdop s;
     tdop := tdop s; pdop := pdop s; hdop := hdop s; gdop := gdop s; epe := epe s;
     satellites := satellites s; gps_id := gps_id s; driver_mode := driver_mode s;
     baudrate := baudrate s; stopbits := stopbits s; cycle := cycle s; mincycle := mincycle s;
     device := device s; devices := devices s; version := version s; newstyle := newstyle s;
     self_epy := self_epy s; path := path s; activated := activated s;
     serialmode := serialmode s; data := data s; response := response s |}.

Definition set_vdop (v : pyval) (s : gps) : gps :=
  {| online := online s; valid := valid s; fix_ := fix_ s; status := status s; utc := utc s;
     satellites_used := satellites_used s; xdop := xdop s; ydop := ydop s; vdop := v;
     tdop := tdop s; pdop := pdop s; hdop := hdop s; gdop := gdop s; epe := epe s;
     satellites := satellites s; gps_id := gps_id s; driver_mode := driver_mode s;
     baudrate := baudrate s; stopbits := stopbits s; cycle := cycle s; mincycle := mincycle s;
     device := device s; devices := devices s; version := version s; newstyle := newstyle s;
     self_epy := self_epy s; path := path s; activated := activated s;
     serialmode := serialmode s; data := data s; response := response s |}.

Definition set_pdop (v : pyval) (s : gps) : gps :=
  {| online := online s; valid := valid s; fix_ := fix_ s; status := status s; utc := utc s;
     satellites_used := satellites_used s; xdop := xdop s; ydop := ydop s; vdop := vdop s;
     tdop := tdop s; pdop := v; hdop := hdop s; gdop := gdop s; epe := epe s;
     satellites := satellites s; gps_id := gps_id s; driver_mode := driver_mode s;
     baudrate := baudrate s; stopbits := stopbits s; cycle := cycle s; mincycle := mincycle s;
     device := device s; devices := devices s; version := version s; newstyle := newstyle s;
     self_epy := self_epy s; path := path s; activated := activated s;
     serialmode := serialmode s; data := data s; response := response s |}.

Definition set_hdop (v : pyval) (s : gps) : gps :=
  {| online := online s; valid := valid s; fix_ := fix_ s; status := status s; utc := utc s;
     satellites_used := satellites_used s; xdop := xdop s; ydop := ydop s; vdop := vdop s;
     tdop := tdop s; pdop := pdop s; hdop := v; gdop := gdop s; epe := epe s;
     satellites := satellites s; gps_id := gps_id s; driver_mode := driver_mode s;
     baudrate := baudrate s; stopbits := stopbits s; cycle := cycle s; mincycle := mincycle s;
     device := device s; devices := devices s; version := version s; newstyle := newstyle s;
     self_epy := self_epy s; path := path s; activated := activated s;
     serialmode := serialmode s; data := data s; response := response s |}.

Definition set_gdop (v : pyval) (s : gps) : gps :=
  {| online := online s; valid := valid s; fix_ := fix_ s; status := status s; utc := utc s;
     satellites_used := satellites_used s; xdop := xdop s; ydop := ydop s; vdop := vdop s;
     tdop := tdop s; pdop := pdop s; hdop := hdop s; gdop := v; epe := epe s;
     satellites := satellites s; gps_id := gps_id s; driver_mode := driver_mode s;
     baudrate := baudrate s; stopbits := stopbits s; cycle := cycle s; mincycle := mincycle s;
     device := device s; devices := devices s; version := version s; newstyle := newstyle s;
     self_epy := self_epy s; path := path s; activated := activated s;
     serialmode := serialmode s; data := data s; response := response s |}.

Definition set_satellites (v : list satellite) (s : gps) : gps :=
  {| online := online s; valid := valid s; fix_ := fix_ s; status := status s; utc := utc s;
     satellites_used := satellites_used s; xdop := xdop s; ydop := ydop s; vdop := vdop s;
     tdop := tdop s; pdop := pdop s; hdop := hdop s; gdop := gdop s; epe := epe s;
     satellites := v; gps_id := gps_id s; driver_mode := driver_mode s; baudrate := baudrate s;
     stopbits := stopbits s; cycle := cycle s; mincycle := mincycle s; device := device s;
     devices := devices s; version := version s; newstyle := newstyle s;
     self_epy := self_epy s; path := path s; activated := activated s;
     serialmode := serialmode s; data := data s; response := response s |}.

Definition set_gps_id (v : pyval) (s : gps) : gps :=
  {| online := online s; valid := valid s; fix_ := fix_ s; status := status s; utc := utc s;
     satellites_used := satellites_used s; xdop := xdop s; ydop := ydop s; vdop := vdop s;
     tdop := tdop s; pdop := pdop s; hdop := hdop s; gdop := gdop s; epe := epe s;
     satellites := satellites s; gps_id := v; driver_mode := driver_mode s;
     baudrate := baudrate s; stopbits := stopbits s; cycle := cycle s; mincycle := mincycle s;
     device := device s; devices := devices s; version := version s; newstyle := newstyle s;
     self_epy := self_epy s; path := path s; activated := activated s;
     serialmode := serialmode s; data := data s; response := response s |}.

Definition set_driver_mode (v : pyval) (s : gps) : gps :=
  {| online := online s; valid := valid s; fix_ := fix_ s; status := status s; utc := utc s;
     satellites_used := satellites_used s; xdop := xdop s; ydop := ydop s; vdop := vdop s;
     tdop := tdop s; pdop := pdop s; hdop := hdop s; gdop := gdop s; epe := epe s;
     satellites := satellites s; gps_id := gps_id s; driver_mode := v; baudrate := baudrate s;
     stopbits := stopbits s; cycle := cycle s; mincycle := mincycle s; device := device s;
     devices := devices s; version := version s; newstyle := newstyle s;
     self_epy := self_epy s; path := path s; activated := activated s;
     serialmode := serialmode s; data := data s; response := response s |}.

Definition set_baudrate (v : pyval) (s : gps) : gps :=
  {| online := online s; valid := valid s; fix_ := fix_ s; status := status s; utc := utc s;
     satellites_used := satellites_used s; xdop := xdop s; ydop := ydop s; vdop := vdop s;
     tdop := tdop s; pdop := pdop s; hdop := hdop s; gdop := gdop s; epe := epe s;
     satellites := satellites s; gps_id := gps_id s; driver_mode := driver_mode s;
     baudrate := v; stopbits := stopbits s; cycle := cycle s; mincycle := mincycle s;
     device := device s; devices := devices s; version := version s; newstyle := newstyle s;
     self_epy := self_epy s; path := path s; activated := activated s;
     serialmode := serialmode s; data := data s; response := response s |}.

Definition set_cycle (v : pyval) (s : gps) : gps :=
  {| online := online s; valid := valid s; fix_ := fix_ s; status := status s; utc := utc s;
     satellites_used := satellites_used s; xdop := xdop s; ydop := ydop s; vdop := vdop s;
     tdop := tdop s; pdop := pdop s; hdop := hdop s; gdop := gdop s; epe := epe s;
     satellites := satellites s; gps_id := gps_id s; driver_mode := driver_mode s;
     baudrate := baudrate s; stopbits := stopbits s; cycle := v; mincycle := mincycle s;
     device := device s; devices := devices s; version := version s; newstyle := newstyle s;
     self_epy := self_epy s; path := path s; activated := activated s;
     serialmode := serialmode s; data := data s; response := response s |}.

Definition set_mincycle (v : pyval) (s : gps) : gps :=
  {| online := online s; valid := valid s; fix_ := fix_ s; status := status s; utc := utc s;
     satellites_used := satellites_used s; xdop := xdop s; ydop := ydop s; vdop := vdop s;
     tdop := tdop s; pdop := pdop s; hdop := hdop s; gdop := gdop s; epe := epe s;
     satellites := satellites s; gps_id := gps_id s; driver_mode := driver_mode s;
     baudrate := baudrate s; stopbits := stopbits s; cycle := cycle s; mincycle := v;
     device := device s; devices := devices s; version := version s; newstyle := newstyle s;
     self_epy := self_epy s; path := path s; activated := activated s;
     serialmode := serialmode s; data := data s; response := response s |}.

Definition set_device (v : pyval) (s : gps) : gps :=
  {| online := online s; valid := valid s; fix_ := fix_ s; status := status s; utc := utc s;
     satellites_used := satellites_used s; xdop := xdop s; ydop := ydop s; vdop := vdop s;
     tdop := tdop s; pdop := pdop s; hdop := hdop s; gdop := gdop s; epe := epe s;
     satellites := satellites s; gps_id := gps_id s; driver_mode := driver_mode s;
     baudrate := baudrate s; stopbits := stopbits s; cycle := cycle s; mincycle := mincycle s;
     device := v; devices := devices s; version := version s; newstyle := newstyle s;
     self_epy := self_epy s; path := path s; activated := activated s;
     serialmode := serialmode s; data := data s; response := response s |}.

Definition set_version (v : pyval) (s : gps) : gps :=
  {| online := online s; valid := valid s; fix_ := fix_ s; status := status s; utc := utc s;
     satellites_used := satellites_used s; xdop := xdop s; ydop := ydop s; vdop := vdop s;
     tdop := tdop s; pdop := pdop s; hdop := hdop s; gdop := gdop s; epe := epe s;
     satellites := satellites s; gps_id := gps_id s; driver_mode := driver_mode s;
     baudrate := baudrate s; stopbits := stopbits s; cycle := cycle s; mincycle := mincycle s;
     device := device s; devices := devices s; version := v; newstyle := newstyle s;
     self_epy := self_epy s; path := path s; activated := activated s;
     serialmode := serialmode s; data := data s; response := response s |}.

Definition set_newstyle (v : bool) (s : gps) : gps :=
  {| online := online s; valid := valid s; fix_ := fix_ s; status := status s; utc := utc s;
     satellites_used := satellites_used s; xdop := xdop s; ydop := ydop s; vdop := vdop s;
     tdop := tdop s; pdop := pdop s; hdop := hdop s; gdop := gdop s; epe := epe s;
     satellites := satellites s; gps_id := gps_id s; driver_mode := driver_mode s;
     baudrate := baudrate s; stopbits := stopbits s; cycle := cycle s; mincycle := mincycle s;
     device := device s; devices := devices s; version := version s; newstyle := v;
     self_epy := self_epy s; path := path s; activated := activated s;
     serialmode := serialmode s; data := data s; response := response s |}.

Definition set_self_epy (v : option pyval) (s : gps) : gps :=
  {| online := online s; valid := valid s; fix_ := fix_ s; status := status s; utc := utc s;
     satellites_used := satellites_used s; xdop := xdop s; ydop := ydop s; vdop := vdop s;
     tdop := tdop s; pdop := pdop s; hdop := hdop s; gdop := gdop s; epe := epe s;
     satellites := satellites s; gps_id := gps_id s; driver_mode := driver_mode s;
     baudrate := baudrate s; stopbits := stopbits s; cycle := cycle s; mincycle := mincycle s;
     device := device s; devices := devices s; version := version s; newstyle := newstyle s;
     self_epy := v; path := path s; activated := activated s; serialmode := serialmode s;
     data := data s; response := response s |}.

Definition set_path (v : option pyval) (s : gps) : gps :=
  {| online := online s; valid := valid s; fix_ := fix_ s; status := status s; utc := utc s;
     satellites_used := satellites_used s; xdop := xdop s; ydop := ydop s; vdop := vdop s;
     tdop := tdop s; pdop := pdop s; hdop := hdop s; gdop := gdop s; epe := epe s;
     satellites := satellites s; gps_id := gps_id s; driver_mode := driver_mode s;
     baudrate := baudrate s; stopbits := stopbits s; cycle := cycle s; mincycle := mincycle s;
     device := device s; devices := devices s; version := version s; newstyle := newstyle s;
     self_epy := self_epy s; path := v; activated := activated s; serialmode := serialmode s;
     data := data s; response := response s |}.

Definition set_activated (v : option pyval) (s : gps) : gps :=
  {| online := online s; valid := valid s; fix_ := fix_ s; status := status s; utc := utc s;
     satellites_used := satellites_used s; xdop := xdop s; ydop := ydop s; vdop := vdop s;
     tdop := tdop s; pdop := pdop s; hdop := hdop s; gdop := gdop s; epe := epe s;
     satellites := satellites s; gps_id := gps_id s; driver_mode := driver_mode s;
     baudrate := baudrate s; stopbits := stopbits s; cycle := cycle s; mincycle := mincycle s;
     device := device s; devices := devices s; version := version s; newstyle := newstyle s;
     self_epy := self_epy s; path := path s; activated := v; serialmode := serialmode s;
     data := data s; response := response s |}.

Definition set_serialmode (v : option pyval) (s : gps) : gps :=
  {| online := online s; valid := valid s; fix_ := fix_ s; status := status s; utc := utc s;
     satellites_used := satellites_used s; xdop := xdop s; ydop := ydop s; vdop := vdop s;
     tdop := tdop s; pdop := pdop s; hdop := hdop s; gdop := gdop s; epe := epe s;
     satellites := satellites s; gps_id := gps_id s; driver_mode := driver_mode s;
     baudrate := baudrate s; stopbits := stopbits s; cycle := cycle s; mincycle := mincycle s;
     device := device s; devices := devices s; version := version s; newstyle := newstyle s;
     self_epy := self_epy s; path := path s; activated := activated s; serialmode := v;
     data := data s; response := response s |}.

Definition set_data (v : option (gmap string pyval)) (s : gps) : gps :=
  {| online := online s; valid := valid s; fix_ := fix_ s; status := status s; utc := utc s;
     satellites_used := satellites_used s; xdop := xdop s; ydop := ydop s; vdop := vdop s;
     tdop := tdop s; pdop := pdop s; hdop := hdop s; gdop := gdop s; epe := epe s;
     satellites := satellites s; gps_id := gps_id s; driver_mode := driver_mode s;
     baudrate := baudrate s; stopbits := stopbits s; cycle := cycle s; mincycle := mincycle s;
     device := device s; devices := devices s; version := version s; newstyle := newstyle s;
     self_epy := self_epy s; path := path s; activated := activated s;
     serialmode := serialmode s; data := v; response := response s |}.

Definition set_response (v : option string) (s : gps) : gps :=
  {| online := online s; valid := valid s; fix_ := fix_ s; status := status s; utc := utc s;
     satellites_used := satellites_used s; xdop := xdop s; ydop := ydop s; vdop := vdop s;
     tdop := tdop s; pdop := pdop s; hdop := hdop s; gdop := gdop s; epe := epe s;
     satellites := satellites s; gps_id := gps_id s; driver_mode := driver_mode s;
     baudrate := baudrate s; stopbits := stopbits s; cycle := cycle s; mincycle := mincycle s;
     device := device s; devices := devices s; version := version s; newstyle := newstyle s;
     self_epy := self_epy s; path := path s; activated := activated s;
     serialmode := serialmode s; data := data s; response := v |}.

(** [gpsfix.__init__] *)
Definition gpsfix_init : gpsfix :=
  {| mode := PInt MODE_NO_FIX; time := NaN; ept := NaN;
     latitude := PFloat 0; longitude := PFloat 0;
     epx := NaN; epy := NaN; altitude := NaN; epv := NaN; track := NaN;
     speed := NaN; climb := NaN; epd := NaN; eps := NaN; epc := NaN |}.

(** [gpsdata.__init__] followed by [gps.__init__]: no attribute of the
    structured decoder exists yet. *)
Definition gps_init : gps :=
  {| online := PInt 0; valid := 0; fix_ := gpsfix_init; status := STATUS_NO_FIX;
     utc := PStr ""; satellites_used := 0;
     xdop := PInt 0; ydop := PInt 0; vdop := PInt 0; tdop := PInt 0;
     pdop := PFloat 0; hdop := PFloat 0; gdop := PFloat 0; epe := PFloat 0;
     satellites := []; gps_id := PNone; driver_mode := PInt 0; baudrate := PInt 0;
     stopbits := PInt 0; cycle := PInt 0; mincycle := PInt 0; device := PNone;
     devices := []; version := PNone; newstyle := false; self_epy := None;
     path := None; activated := None; serialmode := None; data := None;
     response := None |}.

(** ** Strings, as the decoders use them *)

(** Python's whitespace for [str.strip()] and [str.split()]: space and the
    control characters 9 to 13. *)
Definition is_space (c : ascii) : bool :=
  let n := N_of_ascii c in ((n =? 32) || ((9 <=? n) && (n <=? 13)))%N.

Fixpoint lstrip (s : string) : string :=
  match s with
  | String c s' => if is_space c then lstrip s' else s
  | EmptyString => EmptyString
  end.

Fixpoint rstrip (s : string) : string :=
  match s with
  | String c s' =>
      match rstrip s' with
      | EmptyString => if is_space c then EmptyString else String c EmptyString
      | r => String c r
      end
  | EmptyString => EmptyString
  end.

(** [s.strip()] *)
Definition strip (s : string) : string := rstrip (lstrip s).

(** [s.split(sep)] for a one-character separator: never an empty list. *)
Fixpoint split_on (sep : ascii) (s : string) : list string :=
  match s with
  | String c s' =>
      if Ascii.eqb c sep then EmptyString :: split_on sep s'
      else match split_on sep s' with
           | w :: ws => String c w :: ws
           | [] => [String c EmptyString]
           end
  | EmptyString => [EmptyString]
  end.

(** [s.split()]: runs of whitespace separate, empty words are dropped. *)
Fixpoint split_ws (s : string) : list string :=
  match s with
  | String c s' =>
      if is_space c then split_ws s'
      else match s' with
           | EmptyString => [String c EmptyString]
           | String c' _ =>
               if is_space c' then String c EmptyString :: split_ws s'
               else match split_ws s' with
                    | w :: ws => String c w :: ws
                    | [] => [String c EmptyString]
                    end
           end
  | EmptyString => []
  end.

(** [c.upper()] on one character. *)
Definition upper (c : ascii) : ascii :=
  let n := N_of_ascii c in
  if ((97 <=? n) && (n <=? 122))%N then ascii_of_N (n - 32) else c.

(** [s[n:]] *)
Fixpoint drop_chars (n : nat) (s : string) : string :=
  match n, s with
  | O, _ => s
  | S n', String _ s' => drop_chars n' s'
  | S _, EmptyString => EmptyString
  end.

(** [s.startswith(p)] *)
Definition startswith (p s : string) : bool := String.prefix p s.

Fixpoint rev_string (s : string) : string :=
  match s with
  | String c s' => String.append (rev_string s') (String c EmptyString)
  | EmptyString => EmptyString
  end.

(** [s.endswith(p)] *)
Definition endswith (p s : string) : bool :=
  String.prefix (rev_string p) (rev_string s).

(** The characters of a string, as iterating over it yields them. *)
Fixpoint chars (s : string) : list pyval :=
  match s with
  | String c s' => PStr (String c EmptyString) :: chars s'
  | EmptyString => []
  end.

(** Every character is 7-bit: [u.encode("ascii")] succeeds. *)
Fixpoint all_ascii (s : string) : bool :=
  match s with
  | String c s' => (N_of_ascii c <? 128)%N && all_ascii s'
  | EmptyString => true
  end.

(** ** Mutation and exceptions

    A method of the session runs against the session object and either
    returns or raises; what was assigned before a raise stays assigned. *)

Definition M (A : Type) : Type := gps -> outcome A * gps.

Definition ret {A : Type} (a : A) : M A := fun s => (Return a, s).

Definition raise {A : Type} (e : exn) : M A := fun s => (Raise e, s).

Definition bind {A B : Type} (m : M A) (k : A -> M B) : M B :=
  fun s =>
    match m s with
    | (Return a, s') => k a s'
    | (Raise e, s') => (Raise e, s')
    end.

Definition gets {A : Type} (f : gps -> A) : M A := fun s => (Return (f s), s).

Definition modify (f : gps -> gps) : M unit := fun s => (Return tt, f s).

(** An outcome computed without touching the session. *)
Definition lift {A : Type} (o : outcome A) : M A := fun s => (o, s).

(** [o] read as a possibly missing item: [e] is raised where it is missing. *)
Definition or_raise {A : Type} (e : exn) (o : option A) : M A :=
  match o with
  | Some a => ret a
  | None => raise e
  end.

Declare Scope py_scope.
Delimit Scope py_scope with py.
Notation "x <- c1 ;; c2" := (bind c1 (fun x => c2))
  (at level 100, c1 at next level, right associativity) : py_scope.
Notation "c1 ;; c2" := (bind c1 (fun _ => c2))
  (at level 100, right associativity) : py_scope.
Local Open Scope py_scope.

(** [for x in l: body(x)] *)
Fixpoint for_each {A : Type} (l : list A) (body : A -> M unit) : M unit :=
  match l with
  | [] => ret tt
  | x :: l' => body x ;; for_each l' body
  end.

(** [self.valid |= vbit] *)
Definition or_valid (vbit : Z) : M unit :=
  modify (fun s => set_valid (Z.lor (valid s) vbit) s).

(** [self.valid &= ~mask] *)
Definition clear_valid (mask : Z) : M unit :=
  modify (fun s => set_valid (Z.land (valid s) (Z.lnot mask)) s).

(** [self.fix.<field> = v], by the field's setter. *)
Definition assign_fix (setter : pyval -> gpsfix -> gpsfix) (v : pyval) : M unit :=
  modify (fun s => set_fix_ (setter v (fix_ s)) s).

(** [d[k]] on a mapping. *)
Definition getitem (d : gmap string pyval) (k : string) : M pyval :=
  or_raise KeyError (d !! k).

(** [v[k]] for a string key: only a mapping can be subscripted by one. *)
Definition subscript (v : pyval) (k : string) : M pyval :=
  match v with
  | PDict d => getitem d k
  | _ => raise TypeError
  end.

(** What [for x in v] iterates over: the items of a list, the characters of
    a string, the keys of a mapping; anything else is not iterable. *)
Definition iterate (v : pyval) : M (list pyval) :=
  match v with
  | PList l => ret l
  | PStr s => ret (chars s)
  | PDict d => ret (PStr <$> (map_to_list d).*1)
  | _ => raise TypeError
  end.

(** The tokenized record after the list it holds under ['driver'] has been
    extended in place by [items]. *)
Definition extend_driver (items : list pyval) (s : gps) : gps :=
  match data s with
  | Some d =>
      match d !! "driver" with
      | Some (PList l) => set_data (Some (<["driver" := PList (l ++ items)]> d)) s
      | _ => s
      end
  | None => s
  end.

(** [self.gps_id += b], the one augmented assignment of gps.py. Strings
    concatenate into a new string. A list is extended in place by the items
    of a string: the identifier was assigned from the record's ['driver']
    entry, so it is that very list which grows, and the record shows the
    items too. Every other pairing met here is a [TypeError]. *)
Definition iadd (a b : pyval) : M pyval :=
  match a, b with
  | PStr x, PStr y => ret (PStr (String.append x y))
  | PList l, PStr y =>
      modify (extend_driver (chars y)) ;; ret (PList (l ++ chars y))
  | _, _ => raise TypeError
  end.

(** [" " + v] *)
Definition space_plus (v : pyval) : M pyval :=
  match v with
  | PStr y => ret (PStr (String.append " " y))
  | _ => raise TypeError
  end.

(** [v.encode("ascii")]: only strings have the method. *)
Definition encode_ascii (v : pyval) : M pyval :=
  match v with
  | PStr s => if all_ascii s then ret (PStr s) else raise UnicodeEncodeError
  | _ => raise AttributeError
  end.

(** The outcome monad, for the parts of a decode that build local values. *)
Definition obind {A B : Type} (o : outcome A) (k : A -> outcome B) : outcome B :=
  match o with
  | Return a => k a
  | Raise e => Raise e
  end.

(** The constructor [gps.satellite] applied to an unpacked argument list:
    four or five positional arguments, [used] defaulting to [None]. *)
Definition make_satellite (args : list pyval) : outcome satellite :=
  match args with
  | [p; e; a; q] =>
      Return {| PRN := p; elevation := e; azimuth := a; ss := q; used := PNone |}
  | [p; e; a; q; u] =>
      Return {| PRN := p; elevation := e; azimuth := a; ss := q; used := u |}
  | _ => Raise TypeError
  end.

(** [setattr(self, name, v)] for the names the sky report computes. *)
Definition setattr (name : string) (v : pyval) (s : gps) : gps :=
  if String.eqb name "xdop" then set_xdop v s
  else if String.eqb name "ydop" then set_ydop v s
  else if String.eqb name "vdop" then set_vdop v s
  else if String.eqb name "hdop" then set_hdop v s
  else if String.eqb name "pdop" then set_pdop v s
  else if String.eqb name "gdop" then set_gdop v s
  else s.

(** The bits a legacy fix report clears before it re-derives them. *)
Definition O_MASK : Z :=
  Z.lor TIME_SET (Z.lor TIMERR_SET (Z.lor LATLON_SET (Z.lor ALTITUDE_SET
  (Z.lor HERR_SET (Z.lor VERR_SET (Z.lor TRACK_SET (Z.lor SPEED_SET
  (Z.lor CLIMB_SET (Z.lor SPEEDERR_SET (Z.lor CLIMBERR_SET MODE_SET)))))))))).

Definition CRLF : string := String "013" (String "010" EmptyString).

(** ** Stand-ins for the imported functions

    The decoders are parametric in [float], [int], [isotime] and the
    tokenizer. To run them on sample messages these simple readings are
    used; no general property below depends on them. *)

Definition digit_of (c : ascii) : option Z :=
  let n := N_of_ascii c in
  if ((48 <=? n) && (n <=? 57))%N then Some (Z.of_N n - 48) else None.

(** The value of a non-empty string of decimal digits, after [acc]. *)
Fixpoint digits_from (acc : Z) (s : string) : option Z :=
  match s with
  | String c s' =>
      match digit_of c with
      | Some d =>
          match s' with
          | EmptyString => Some (10 * acc + d)
          | _ => digits_from (10 * acc + d) s'
          end
      | None => None
      end
  | EmptyString => None
  end.

(** An optional sign, then the rest. *)
Definition signed {A : Type} (body : string -> option A) (neg : A -> A) (s : string)
    : option A :=
  match s with
  | String "-" s' => neg <$> body s'
  | String "+" s' => body s'
  | _ => body s
  end.

(** [int] on an optionally signed run of decimal digits. *)
Definition decimal_int (s : string) : option Z :=
  signed (digits_from 0) Z.opp s.

(** The float of a positive integer, exact below 2^53. *)
Fixpoint float_of_positive (p : positive) : float :=
  match p with
  | xH => 1
  | xO p' => 2 * float_of_positive p'
  | xI p' => 2 * float_of_positive p' + 1
  end%float.

Definition float_of_Z (z : Z) : float :=
  match z with
  | Z0 => 0
  | Zpos p => float_of_positive p
  | Zneg p => - float_of_positive p
  end%float.

(** [float] on an optionally signed literal [digits] or [digits.digits]: the
    quotient of two exactly represented integers, hence correctly rounded for
    literals of up to 15 digits. *)
Definition decimal_float (s : string) : option float :=
  signed
    (fun body =>
       match split_on "." body with
       | [whole] => float_of_Z <$> digits_from 0 whole
       | [whole; frac] =>
           n ← digits_from 0 (String.append whole frac);
           Some (float_of_Z n / float_of_Z (10 ^ Z.of_nat (String.length frac)))%float
       | _ => None
       end)
    PrimFloat.opp s.

(** [isotime] reduced to its two directions: every timestamp text reads as
    the epoch [e] and every number prints as the text [t]. *)
Definition fixed_isotime (e : float) (t : string) (x : pyval) : outcome pyval :=
  match x with
  | PStr _ => Return (PFloat e)
  | PFloat _ | PInt _ => Return (PStr t)
  | _ => Raise TypeError
  end.

(** A tokenizer that yields the record [d] for whatever text it is given. *)
Definition tokenized (d : gmap string pyval) (buf : string)
    : outcome (gmap string pyval) := Return d.

(** ** Sample records *)

(** A structured record, from its key-value pairs. *)
Definition record (items : list (string * pyval)) : gmap string pyval :=
  list_to_map items.

(** A report whose time is an ISO-8601 text. *)
Definition tpv_text_time : gmap string pyval :=
  record [("class", PStr "TPV"); ("time", PStr "2010-04-30T11:48:20.10Z")].

(** [{"class":"TPV","lat":10.5,"lon":20.25}] *)
Definition tpv_lat_lon : gmap string pyval :=
  record [("class", PStr "TPV"); ("lat", PFloat 10.5); ("lon", PFloat 20.25)].

(** The wire form of a structured record: braces around [body], then the
    record terminator. *)
Definition framed (body : string) : string :=
  String.append "{" (String.append body (String.append "}" CRLF)).

(** One element of a sky report's satellite array. *)
Definition sat_record (prn el az strength : Z) (u : bool) : pyval :=
  PDict (record [("PRN", PInt prn); ("el", PInt el); ("az", PInt az);
                 ("ss", PInt strength); ("used", PBool u)]).

(** A sky report with two satellites, the first of them used. *)
Definition sky_two : gmap string pyval :=
  record [("class", PStr "SKY");
          ("satellites", PList [sat_record 1 10 80 40 true; sat_record 2 20 150 35 false])].

(** A device record with its path. *)
Definition device_usb : gmap string pyval :=
  record [("class", PStr "DEVICE"); ("path", PStr "/dev/ttyUSB0");
          ("driver", PStr "SiRF binary")].

(** The stand-in for [isotime] used on the sample messages. *)
Definition sample_isotime : pyval -> outcome pyval :=
  fixed_isotime 1272628100.5 "2010-04-30T11:48:20.50".

(** A legacy fix report of fifteen sub-fields. *)
Definition fix_report_data : string :=
  "RMC 1272628100.5 0.005 10.5 20.25 ? 2.5 ? 1.0 abc ? ? ? ? 3".

(** ** Streaming requests *)

Definition WATCH_NEWSTYLE : Z := 0x010000.
Definition WATCH_OLDSTYLE : Z := 0x020000.

(** What [stream] ends up doing: it either returns what [self.send] returns
    for a command, or hands the request to [gpsjson.stream], or does
    neither. Both callees belong to the module [client]. *)
Inductive stream_action : Type :=
| Send (arg : string)
| JsonStream (flags : Z) (devpath : pyval)
| NoRequest.

Section Decoder.

(** What gps.py imports and calls but does not define: Python's [float] and
    [int] on a string ([None] where they raise [ValueError]), [isotime] of
    the module [misc], and the tokenizer [unpack] of the module [client]
    (the mapping it stores in [self.data], or the exception it raises). *)
Variable py_float : string -> option float.
Variable py_int : string -> option Z.
Variable isotime : pyval -> outcome pyval.
Variable unpack : string -> outcome (gmap string pyval).

(** [cnv=float] and [cnv=int] *)
Definition cnv_float (w : string) : option pyval := PFloat <$> py_float w.
Definition cnv_int (w : string) : option pyval := PInt <$> py_int w.

(** *** The legacy decoder *)

(** The [default] of [__oldstyle_unpack], closed over the sub-fields. *)
Definition unpack_default (fields : list string) (i : nat) (vbit : Z)
    (cnv : string -> option pyval) : M pyval :=
  w <- or_raise IndexError (fields !! i) ;;
  if String.eqb w "?" then ret NaN
  else match cnv w with
       | None => ret NaN
       | Some value => or_valid vbit ;; ret value
       end.

(** The branch [cmd == 'O']. *)
Definition unpack_O (data : string) : M unit :=
  let fields := split_ws data in
  w0 <- or_raise IndexError (fields !! 0%nat) ;;
  if String.eqb w0 "?" then assign_fix set_mode (PInt MODE_NO_FIX)
  else
    clear_valid O_MASK ;;
    w1 <- or_raise IndexError (fields !! 1%nat) ;;
    modify (set_utc (PStr w1)) ;;
    t <- unpack_default fields 1 TIME_SET cnv_float ;;
    assign_fix set_time t ;;
    (if isnan t then ret tt else u <- lift (isotime t) ;; modify (set_utc u)) ;;
    v <- unpack_default fields 2 TIMERR_SET cnv_float ;; assign_fix set_ept v ;;
    v <- unpack_default fields 3 LATLON_SET cnv_float ;; assign_fix set_latitude v ;;
    v <- unpack_default fields 4 0 cnv_float ;; assign_fix set_longitude v ;;
    v <- unpack_default fields 5 ALTITUDE_SET cnv_float ;; assign_fix set_altitude v ;;
    v <- unpack_default fields 6 HERR_SET cnv_float ;;
    assign_fix set_epx v ;; modify (set_self_epy (Some v)) ;;
    v <- unpack_default fields 7 VERR_SET cnv_float ;; assign_fix set_epv v ;;
    v <- unpack_default fields 8 TRACK_SET cnv_float ;; assign_fix set_track v ;;
    v <- unpack_default fields 9 SPEED_SET cnv_float ;; assign_fix set_speed v ;;
    v <- unpack_default fields 10 CLIMB_SET cnv_float ;; assign_fix set_climb v ;;
    v <- unpack_default fields 11 0 cnv_float ;; assign_fix set_epd v ;;
    v <- unpack_default fields 12 SPEEDERR_SET cnv_float ;; assign_fix set_eps v ;;
    v <- unpack_default fields 13 CLIMBERR_SET cnv_float ;; assign_fix set_epc v ;;
    if (14 <? length fields)%nat then
      v <- unpack_default fields 14 MODE_SET cnv_int ;; assign_fix set_mode v
    else
      a <- gets (fun s => Z.land (valid s) ALTITUDE_SET) ;;
      (if negb (a =? 0) then assign_fix set_mode (PInt MODE_2D)
       else assign_fix set_mode (PInt MODE_3D)) ;;
      or_valid MODE_SET.

(** [map(int, words)] *)
Fixpoint map_int (words : list string) : outcome (list pyval) :=
  match words with
  | [] => Return []
  | w :: words' =>
      match py_int w with
      | None => Raise ValueError
      | Some z => obind (map_int words') (fun zs => Return (PInt z :: zs))
      end
  end.

(** The loop [for i in range(d1)] that fills [newsats]. *)
Fixpoint newsats_of (satellites : list string) (range : list nat)
    : outcome (list satellite) :=
  match range with
  | [] => Return []
  | i :: range' =>
      match satellites !! i with
      | None => Raise IndexError
      | Some block =>
          obind (map_int (split_ws block)) (fun args =>
          obind (make_satellite args) (fun sat =>
          obind (newsats_of satellites range') (fun rest =>
          Return (sat :: rest))))
      end
  end.

(** The branch [cmd == 'Y']. *)
Definition unpack_Y (data : string) : M unit :=
  match split_on ":" data with
  | [] => raise IndexError
  | first :: satellites =>
      let prefix := split_ws first in
      w <- or_raise IndexError (last prefix) ;;
      d1 <- or_raise ValueError (py_int w) ;;
      newsats <- lift (newsats_of satellites (seq 0 (Z.to_nat d1))) ;;
      modify (set_satellites newsats) ;;
      or_valid SATELLITE_SET
  end.

(** The body of the loop [for field in fields[1:]]. *)
Definition unpack_field (field : string) : M unit :=
  if String.eqb field "" then ret tt
  else
    c1 <- or_raise IndexError (String.get 1 field) ;;
    if negb (Ascii.eqb c1 "=") then ret tt
    else
      c0 <- or_raise IndexError (String.get 0 field) ;;
      let cmd := upper c0 in
      let data := drop_chars 2 field in
      d0 <- or_raise IndexError (String.get 0 data) ;;
      if Ascii.eqb d0 "?" then ret tt
      else if Ascii.eqb cmd "F" then modify (set_device (PStr data))
      else if Ascii.eqb cmd "I" then modify (set_gps_id (PStr data))
      else if Ascii.eqb cmd "O" then unpack_O data
      else if Ascii.eqb cmd "X" then
        x <- or_raise ValueError (py_float data) ;;
        modify (set_online (PFloat x)) ;;
        or_valid ONLINE_SET
      else if Ascii.eqb cmd "Y" then unpack_Y data
      else ret tt.

(** [__oldstyle_unpack]: unpack a daemon response into the session. *)
Definition oldstyle_unpack (buf : string) : M unit :=
  assign_fix set_time (PFloat 0) ;;
  match split_on "," (strip buf) with
  | [] => raise IndexError
  | first :: rest =>
      if String.eqb first "GPSD" then for_each rest unpack_field else ret tt
  end.

(** *** The structured decoder *)

(** The [default] of [__oldstyle_shim], on the mapping [self.data]. *)
Definition shim_default (d : gmap string pyval) (k : string) (dflt : pyval)
    (vbit : Z) : M pyval :=
  match d !! k with
  | None => ret dflt
  | Some v => or_valid vbit ;; ret v
  end.

(** [self.data.get("class") == name] *)
Definition class_is (d : gmap string pyval) (name : string) : bool :=
  match d !! "class" with
  | Some (PStr c) => String.eqb c name
  | _ => false
  end.

Definition shim_DEVICE (d : gmap string pyval) : M unit :=
  modify (set_valid (Z.lor ONLINE_SET DEVICE_SET)) ;;
  p <- getitem d "path" ;; modify (set_path (Some p)) ;;
  v <- shim_default d "activated" PNone 0 ;; modify (set_activated (Some v)) ;;
  driver <- shim_default d "driver" PNone DEVICEID_SET ;;
  subtype <- shim_default d "subtype" PNone DEVICEID_SET ;;
  modify (set_gps_id driver) ;;
  (if truthy subtype then
     g <- gets gps_id ;; r <- space_plus subtype ;; v <- iadd g r ;;
     modify (set_gps_id v)
   else ret tt) ;;
  v <- shim_default d "native" (PInt 0) 0 ;; modify (set_driver_mode v) ;;
  v <- shim_default d "bps" (PInt 0) 0 ;; modify (set_baudrate v) ;;
  v <- shim_default d "serialmode" (PStr "8N1") 0 ;; modify (set_serialmode (Some v)) ;;
  v <- shim_default d "cycle" NaN 0 ;; modify (set_cycle v) ;;
  v <- shim_default d "mincycle" NaN 0 ;; modify (set_mincycle v).

Definition shim_TPV (d : gmap string pyval) : M unit :=
  modify (set_valid ONLINE_SET) ;;
  u <- shim_default d "time" PNone TIME_SET ;; modify (set_utc u) ;;
  (match u with
   | PNone => ret tt
   | _ =>
       (* Time can be either Unix time as a float or an ISO8601 string *)
       t <- gets (fun s => time (fix_ s)) ;;
       if is_float t then assign_fix set_time u
       else e <- encode_ascii u ;; v <- lift (isotime e) ;; assign_fix set_time v
   end) ;;
  v <- shim_default d "ept" NaN TIMERR_SET ;; assign_fix set_ept v ;;
  v <- shim_default d "lat" NaN LATLON_SET ;; assign_fix set_latitude v ;;
  v <- shim_default d "lon" NaN 0 ;; assign_fix set_longitude v ;;
  v <- shim_default d "alt" NaN ALTITUDE_SET ;; assign_fix set_altitude v ;;
  v <- shim_default d "epx" NaN HERR_SET ;; assign_fix set_epx v ;;
  v <- shim_default d "epy" NaN HERR_SET ;; assign_fix set_epy v ;;
  v <- shim_default d "epv" NaN VERR_SET ;; assign_fix set_epv v ;;
  v <- shim_default d "track" NaN TRACK_SET ;; assign_fix set_track v ;;
  v <- shim_default d "speed" NaN SPEED_SET ;; assign_fix set_speed v ;;
  v <- shim_default d "climb" NaN CLIMB_SET ;; assign_fix set_climb v ;;
  v <- shim_default d "epd" NaN 0 ;; assign_fix set_epd v ;;
  v <- shim_default d "eps" NaN SPEEDERR_SET ;; assign_fix set_eps v ;;
  v <- shim_default d "epc" NaN CLIMBERR_SET ;; assign_fix set_epc v ;;
  v <- shim_default d "mode" (PInt 0) MODE_SET ;; assign_fix set_mode v.

(** One turn of [for sat in self.data['satellites']]: build the record from
    the per-satellite keys and append it to [self.satellites]. *)
Definition append_satellite (sat : pyval) : M unit :=
  p <- subscript sat "PRN" ;;
  e <- subscript sat "el" ;;
  a <- subscript sat "az" ;;
  q <- subscript sat "ss" ;;
  u <- subscript sat "used" ;;
  modify (fun s =>
    set_satellites
      (satellites s ++ [{| PRN := p; elevation := e; azimuth := a; ss := q; used := u |}]) s).

(** [for sat in self.satellites: if sat.used: self.satellites_used += 1] *)
Definition count_used (sat : satellite) : M unit :=
  if truthy (used sat) then
    modify (fun s => set_satellites_used (satellites_used s + 1) s)
  else ret tt.

Definition shim_SKY (d : gmap string pyval) : M unit :=
  for_each ["x"; "y"; "v"; "h"; "p"; "g"] (fun attrp =>
    v <- shim_default d (String.append attrp "dop") NaN DOP_SET ;;
    modify (setattr (String.append attrp "dop") v)) ;;
  (match d !! "satellites" with
   | None => ret tt
   | Some sats =>
       modify (set_satellites []) ;;
       items <- iterate sats ;;
       for_each items append_satellite
   end) ;;
  modify (set_satellites_used 0) ;;
  sats <- gets satellites ;;
  for_each sats count_used ;;
  modify (set_valid (Z.lor ONLINE_SET SATELLITE_SET)).

(** [__oldstyle_shim]: the rest is backwards compatibility for the old
    interface. *)
Definition oldstyle_shim : M unit :=
  o <- gets data ;;
  d <- or_raise AttributeError o ;;
  if class_is d "VERSION" then modify (set_version (PDict d))
  else if class_is d "DEVICE" then shim_DEVICE d
  else if class_is d "TPV" then shim_TPV d
  else if class_is d "SKY" then shim_SKY d
  else ret tt.

(** *** The dispatcher *)

(** [read]: [status] is what [gpscommon.read] returned and [line] the text it
    stored in [self.response], if it stored one. *)
Definition read (status : Z) (line : option string) : M Z :=
  modify (fun s => match line with Some r => set_response (Some r) s | None => s end) ;;
  if status <=? 0 then ret status
  else
    o <- gets response ;;
    r <- or_raise AttributeError o ;;
    if startswith "{" r && endswith (String.append "}" CRLF) r then
      d <- lift (unpack r) ;;
      modify (set_data (Some d)) ;;
      oldstyle_shim ;;
      modify (set_newstyle true) ;;
      or_valid PACKET_SET ;;
      ret 0
    else if startswith "GPSD" r then
      oldstyle_unpack r ;;
      or_valid PACKET_SET ;;
      ret 0
    else ret 0.

(** [next]: end of stream is [StopIteration]; otherwise the record read (or
    the raw response when no structured record was ever unpacked). *)
Definition next (status : Z) (line : option string) : M pyval :=
  r <- read status line ;;
  if r =? -1 then raise StopIteration
  else
    o <- gets data ;;
    match o with
    | Some d => ret (PDict d)
    | None => o' <- gets response ;; r' <- or_raise AttributeError o' ;; ret (PStr r')
    end.


(** *** Streaming requests *)

(** The watch flags gps.py takes from the module [client]. *)
Variable WATCH_JSON : Z.
Variable WATCH_NMEA : Z.
Variable WATCH_RAW : Z.
Variable WATCH_DISABLE : Z.

(** [stream]: ask gpsd to stream reports at your client. *)
Definition stream (flags : Z) (devpath : pyval) : stream_action :=
  let flags :=
    if Z.land flags
         (Z.lor WATCH_JSON (Z.lor WATCH_OLDSTYLE (Z.lor WATCH_NMEA WATCH_RAW))) =? 0
    then Z.lor flags WATCH_JSON else flags in
  if negb (Z.land flags WATCH_DISABLE =? 0) then
    if negb (Z.land flags WATCH_OLDSTYLE =? 0) then
      let arg := "w-" in
      if negb (Z.land flags WATCH_NMEA =? 0) then
        let arg := String.append arg "r-" in Send arg
      else NoRequest
    else JsonStream (Z.lnot flags) devpath
  else
    if negb (Z.land flags WATCH_OLDSTYLE =? 0) then
      let arg := "w+" in
      if negb (Z.land flags WATCH_NMEA =? 0) then
        let arg := String.append arg "r+" in Send arg
      else NoRequest
    else JsonStream flags devpath.

(** [gps.__init__]: the fresh session, and the request made when a mode is
    given. *)
Definition gps_new (mode : Z) : gps * option stream_action :=
  (gps_init, if negb (mode =? 0) then Some (stream mode PNone) else None).

(** ** Vocabulary of the properties *)

(** [m] keeps the invariant [I] of the session whether it returns or raises,
    and raises only exceptions in [E]. *)
Definition keeps {A : Type} (I : gps -> Prop) (E : exn -> Prop) (m : M A) : Prop :=
  forall s, I s -> I (snd (m s)) /\ (forall e, fst (m s) = Raise e -> E e).

(** The command letter of a field of a legacy message. *)
Definition command_of (field : string) : option ascii :=
  upper <$> String.get 0 field.

(** Sub-field [i] is there, is not ['?'] and converts. *)
Definition supplied (cnv : string -> option pyval) (fields : list string) (i : nat)
    : bool :=
  match fields !! i with
  | Some w =>
      negb (String.eqb w "?") && match cnv w with Some _ => true | None => false end
  | None => false
  end.

(** What sub-field [i] converts to when it is supplied, not-a-number
    otherwise. *)
Definition value_at (cnv : string -> option pyval) (fields : list string) (i : nat)
    : pyval :=
  match fields !! i with
  | Some w =>
      if String.eqb w "?" then NaN
      else match cnv w with Some value => value | None => NaN end
  | None => NaN
  end.

(** [v & vbit] read as a truth value: some bit of [vbit] is set in [v]. *)
Definition has_bit (v vbit : Z) : bool := negb (Z.land v vbit =? 0).

(** The fix snapshot is [g] and the time bit is [b]. *)
Definition fix_untouched (g : gpsfix) (b : bool) (s : gps) : Prop :=
  fix_ s = g /\ Z.testbit (valid s) 2 = b.

(** The bit [vbit] when [b] holds, no bit otherwise. *)
Definition bit_if (b : bool) (vbit : Z) : Z := if b then vbit else 0.

(** The bits that can be set after a structured TPV record is read. *)
Definition TPV_MASK : Z := Z.lor ONLINE_SET (Z.lor O_MASK PACKET_SET).

(** No bit outside [mask] is set in the session's bitmask. *)
Definition valid_within (mask : Z) (s : gps) : Prop :=
  Z.land (valid s) (Z.lnot mask) = 0.

(** Bit [k] of the session's bitmask is set. *)
Definition bit_set (k : Z) (s : gps) : Prop := Z.testbit (valid s) k = true.

(** Position and fix field of the sub-fields of a fix report. *)
Definition positional_fields : list (nat * (gpsfix -> pyval)) :=
  [(1, time); (2, ept); (3, latitude); (4, longitude); (5, altitude); (6, epx);
   (7, epv); (8, track); (9, speed); (10, climb); (11, epd); (12, eps);
   (13, epc)]%nat.

(** Position and bit of the sub-fields of a fix report that own a bit. *)
Definition positional_bits : list (nat * Z) :=
  [(1, TIME_SET); (2, TIMERR_SET); (3, LATLON_SET); (5, ALTITUDE_SET);
   (6, HERR_SET); (7, VERR_SET); (8, TRACK_SET); (9, SPEED_SET);
   (10, CLIMB_SET); (12, SPEEDERR_SET); (13, CLIMBERR_SET)]%nat.

(** The mode bit after a fix report: decided by sub-field 14 when there is
    one, set regardless when there is none. *)
Definition mode_supplied (fields : list string) : bool :=
  if (14 <? length fields)%nat then supplied cnv_int fields 14 else true.

(** The bits a fix report with these sub-fields sets. *)
Definition fix_report_bits (fields : list string) : Z :=
  Z.lor (foldr (fun '(i, vbit) acc =>
                  Z.lor (bit_if (supplied cnv_float fields i) vbit) acc)
               0 positional_bits)
        (bit_if (mode_supplied fields) MODE_SET).

(** What only the structured decoder writes: the satellites-used count, the
    dilution-of-precision figures, the version record, the format flag, the
    tokenized record and the device attributes. *)
Definition structured_view (s : gps)
    : Z * (pyval * pyval * pyval * pyval * pyval * pyval) * pyval * bool
      * option (gmap string pyval)
      * (option pyval * option pyval * option pyval)
      * (pyval * pyval * pyval * pyval) :=
  (satellites_used s, (xdop s, ydop s, vdop s, hdop s, pdop s, gdop s), version s,
   newstyle s, data s, (path s, activated s, serialmode s),
   (driver_mode s, baudrate s, cycle s, mincycle s)).

(** [k in d.keys()] *)
Definition has_key (d : gmap string pyval) (k : string) : bool :=
  match d !! k with Some _ => true | None => false end.

(** Key and bit of the entries of a TPV record that own a bit, the time
    apart. *)
Definition tpv_keys : list (string * Z) :=
  [("ept", TIMERR_SET); ("lat", LATLON_SET); ("alt", ALTITUDE_SET);
   ("epx", HERR_SET); ("epy", HERR_SET); ("epv", VERR_SET); ("track", TRACK_SET);
   ("speed", SPEED_SET); ("climb", CLIMB_SET); ("eps", SPEEDERR_SET);
   ("epc", CLIMBERR_SET); ("mode", MODE_SET)].

(** The bits a TPV record without a time sets besides the online bit. *)
Definition tpv_bits (d : gmap string pyval) : Z :=
  foldr (fun '(k, vbit) acc => Z.lor (bit_if (has_key d k) vbit) acc) 0 tpv_keys.

(** Key and fix field of the float entries of a TPV record. *)
Definition tpv_fields : list (string * (gpsfix -> pyval)) :=
  [("ept", ept); ("lat", latitude); ("lon", longitude); ("alt", altitude);
   ("epx", epx); ("epy", epy); ("epv", epv); ("track", track); ("speed", speed);
   ("climb", climb); ("epd", epd); ("eps", eps); ("epc", epc)].

(** The record an item of a SKY satellite array gives: the item has to be a
    mapping with the five per-satellite keys. *)
Definition satellite_of (item : pyval) : option satellite :=
  match item with
  | PDict m =>
      match m !! "PRN", m !! "el", m !! "az", m !! "ss", m !! "used" with
      | Some p, Some e, Some a, Some q, Some u =>
          Some {| PRN := p; elevation := e; azimuth := a; ss := q; used := u |}
      | _, _, _, _, _ => None
      end
  | _ => None
  end.



(** ** Running the monad *)

Lemma keeps_ret {A : Type} (I : gps -> Prop) (E : exn -> Prop) (a : A) :
  keeps I E (ret a).
Proof. intros s HI. split; [exact HI | discriminate]. Qed.

Lemma keeps_raise {A : Type} (I : gps -> Prop) (E : exn -> Prop) (e : exn) :
  E e -> keeps I E (@raise A e).
Proof. intros He s HI. split; [exact HI |]. intros e' [= <-]. exact He. Qed.

Lemma keeps_bind {A B : Type} (I : gps -> Prop) (E : exn -> Prop)
    (m : M A) (k : A -> M B) :
  keeps I E m -> (forall a, keeps I E (k a)) -> keeps I E (bind m k).
Proof.
  intros Hm Hk s HI. unfold bind.
  destruct (Hm s HI) as [HI' HE]. destruct (m s) as [[a | e] s']; simpl in *.
  - apply Hk, HI'.
  - split; [exact HI' |]. intros e' [= <-]. apply HE. reflexivity.
Qed.

Lemma keeps_gets {A : Type} (I : gps -> Prop) (E : exn -> Prop) (f : gps -> A) :
  keeps I E (gets f).
Proof. intros s HI. split; [exact HI | discriminate]. Qed.

Lemma keeps_modify (I : gps -> Prop) (E : exn -> Prop) (f : gps -> gps) :
  (forall s, I s -> I (f s)) -> keeps I E (modify f).
Proof. intros Hf s HI. split; [apply Hf, HI | discriminate]. Qed.

Lemma keeps_lift {A : Type} (I : gps -> Prop) (E : exn -> Prop) (o : outcome A) :
  (forall e, o = Raise e -> E e) -> keeps I E (lift o).
Proof. intros Ho s HI. split; [exact HI | exact Ho]. Qed.

Lemma keeps_or_raise {A : Type} (I : gps -> Prop) (E : exn -> Prop) (e : exn)
    (o : option A) :
  E e -> keeps I E (or_raise e o).
Proof. intros He. destruct o; [apply keeps_ret | apply keeps_raise, He]. Qed.

Lemma keeps_for_each {A : Type} (I : gps -> Prop) (E : exn -> Prop)
    (l : list A) (body : A -> M unit) :
  (forall x, x ∈ l -> keeps I E (body x)) -> keeps I E (for_each l body).
Proof.
  induction l as [| x l IH]; intros Hb; simpl.
  - apply keeps_ret.
  - apply keeps_bind.
    + apply Hb. left.
    + intros _. apply IH. intros y Hy. apply Hb. right. exact Hy.
Qed.

Lemma keeps_or_valid (I : gps -> Prop) (E : exn -> Prop) (vbit : Z) :
  (forall s, I s -> I (set_valid (Z.lor (valid s) vbit) s)) -> keeps I E (or_valid vbit).
Proof. intros H. apply keeps_modify, H. Qed.

Lemma keeps_assign_fix (I : gps -> Prop) (E : exn -> Prop)
    (setter : pyval -> gpsfix -> gpsfix) (v : pyval) :
  (forall s, I s -> I (set_fix_ (setter v (fix_ s)) s)) -> keeps I E (assign_fix setter v).
Proof. intros H. apply keeps_modify, H. Qed.

Lemma keeps_bind_some {A B : Type} (I : gps -> Prop) (E : exn -> Prop) (e : exn)
    (a : A) (k : A -> M B) :
  keeps I E (k a) -> keeps I E (bind (or_raise e (Some a)) k).
Proof. intros H s HI. exact (H s HI). Qed.

Lemma keeps_bind_none {A B : Type} (I : gps -> Prop) (E : exn -> Prop) (e : exn)
    (k : A -> M B) :
  E e -> keeps I E (bind (or_raise e None) k).
Proof. intros He s HI. split; [exact HI |]. intros e' [= <-]. exact He. Qed.

(** Projections of updated sessions, and nothing else, are computed. *)
Ltac session_simpl :=
  cbn [mode time ept latitude longitude epx epy altitude epv track speed climb epd eps epc
       online valid fix_ status utc satellites_used xdop ydop vdop tdop pdop hdop gdop epe
       satellites gps_id driver_mode baudrate stopbits cycle mincycle device devices
       version newstyle self_epy path activated serialmode data response set_mode set_time
       set_ept set_latitude set_longitude set_epx set_epy set_altitude set_epv set_track
       set_speed set_climb set_epd set_eps set_epc set_online set_valid set_fix_ set_utc
       set_satellites_used set_xdop set_ydop set_vdop set_pdop set_hdop set_gdop
       set_satellites set_gps_id set_driver_mode set_baudrate set_cycle set_mincycle
       set_device set_version set_newstyle set_self_epy set_path set_activated
       set_serialmode set_data set_response fst snd].

Ltac session_simpl_in H :=
  cbn [mode time ept latitude longitude epx epy altitude epv track speed climb epd eps epc
       online valid fix_ status utc satellites_used xdop ydop vdop tdop pdop hdop gdop epe
       satellites gps_id driver_mode baudrate stopbits cycle mincycle device devices
       version newstyle self_epy path activated serialmode data response set_mode set_time
       set_ept set_latitude set_longitude set_epx set_epy set_altitude set_epv set_track
       set_speed set_climb set_epd set_eps set_epc set_online set_valid set_fix_ set_utc
       set_satellites_used set_xdop set_ydop set_vdop set_pdop set_hdop set_gdop
       set_satellites set_gps_id set_driver_mode set_baudrate set_cycle set_mincycle
       set_device set_version set_newstyle set_self_epy set_path set_activated
       set_serialmode set_data set_response fst snd] in H.

(** One step of a [keeps] derivation, by the shape of the program. *)
Ltac keeps_step :=
  lazymatch goal with
  | |- keeps _ _ (bind (or_raise _ (Some _)) _) => apply keeps_bind_some
  | |- keeps _ _ (bind (or_raise _ None) _) => apply keeps_bind_none
  | |- keeps _ _ (bind (or_raise _ ?o) _) => destruct o eqn:?
  | |- keeps _ _ (bind _ _) => apply keeps_bind; [| intros ?]
  | |- keeps _ _ (ret _) => apply keeps_ret
  | |- keeps _ _ (raise _) => apply keeps_raise
  | |- keeps _ _ (gets _) => apply keeps_gets
  | |- keeps _ _ (or_raise _ _) => apply keeps_or_raise
  | |- keeps _ _ (or_valid _) => apply keeps_or_valid
  | |- keeps _ _ (assign_fix _ _) => apply keeps_assign_fix
  | |- keeps _ _ (modify _) => apply keeps_modify
  | |- keeps _ _ (lift _) => apply keeps_lift
  | |- keeps _ _ (if ?b then _ else _) => destruct b eqn:?
  | |- keeps _ _ (match ?x with _ => _ end) => destruct x eqn:?
  end.


(** ** Bits *)

Lemma has_bit_testbit (v k : Z) :
  0 <= k -> has_bit v (Z.shiftl 1 k) = Z.testbit v k.
Proof.
  intros Hk. unfold has_bit. rewrite Z.shiftl_1_l.
  destruct (Z.testbit v k) eqn:Hb.
  - apply negb_true_iff, Z.eqb_neq. intros H0.
    assert (Hk' : Z.testbit (Z.land v (2 ^ k)) k = true).
    { rewrite Z.land_spec, Hb, Z.pow2_bits_eqb, Z.eqb_refl by exact Hk. reflexivity. }
    rewrite H0, Z.bits_0 in Hk'. discriminate.
  - apply negb_false_iff, Z.eqb_eq, Z.bits_inj'. intros n Hn.
    rewrite Z.land_spec, Z.pow2_bits_eqb, Z.bits_0 by exact Hk.
    destruct (Z.eqb_spec k n) as [-> | _].
    + rewrite Hb. reflexivity.
    + apply andb_false_r.
Qed.

Lemma testbit_lor_other (v vbit k : Z) :
  Z.testbit vbit k = false -> Z.testbit (Z.lor v vbit) k = Z.testbit v k.
Proof. intros H. rewrite Z.lor_spec, H. apply orb_false_r. Qed.

(** ** The legacy decoder outside a fix report *)

Lemma unpack_field_other (g : gpsfix) (b : bool) (field : string) :
  command_of field <> Some "O"%char ->
  keeps (fix_untouched g b) (fun _ => True) (unpack_field field).
Proof.
  unfold command_of, unpack_field, unpack_Y. intros Hcmd.
  repeat keeps_step;
    try (intros; exact I);
    try (unfold fix_untouched; intros ? [Hg Hb]; split; session_simpl;
         [exact Hg | rewrite ?testbit_lor_other by reflexivity; exact Hb]).
  exfalso. apply Hcmd. simpl.
  match goal with H : Ascii.eqb _ "O" = true |- _ => apply Ascii.eqb_eq in H; rewrite H end.
  reflexivity.
Qed.

(** C10. Every run of the legacy decoder starts by assigning 0.0 to the fix
    time, so its result does not depend on the previous fix time; and a
    message none of whose fields carries the fix-report letter leaves the fix
    time at 0.0, which is not the not-a-number sentinel, and leaves the time
    bit as it was, unset if it was unset. This holds whether the decode
    returns or raises. *)
Theorem legacy_without_fix_report_time_zero (buf : string) (s : gps) :
  Forall (fun field => command_of field <> Some "O"%char)
         (tail (split_on "," (strip buf))) ->
  let s' := snd (oldstyle_unpack buf s) in
  oldstyle_unpack buf s
    = oldstyle_unpack buf (set_fix_ (set_time (PFloat 0) (fix_ s)) s)
  /\ time (fix_ s') = PFloat 0
  /\ isnan (time (fix_ s')) = false
  /\ has_bit (valid s') TIME_SET = has_bit (valid s) TIME_SET
  /\ (has_bit (valid s) TIME_SET = false -> has_bit (valid s') TIME_SET = false).
Proof.
  intros Hno s'.
  set (s0 := set_fix_ (set_time (PFloat 0) (fix_ s)) s).
  assert (Hrun : oldstyle_unpack buf s = oldstyle_unpack buf s0) by reflexivity.
  assert (Hk : keeps (fix_untouched (fix_ s0) (Z.testbit (valid s) 2)) (fun _ => True)
                 (match split_on "," (strip buf) with
                  | [] => raise IndexError
                  | first :: rest =>
                      if String.eqb first "GPSD" then for_each rest unpack_field else ret tt
                  end)).
  { destruct (split_on "," (strip buf)) as [| first rest].
    - apply keeps_raise. exact I.
    - destruct (String.eqb first "GPSD"); [| apply keeps_ret].
      apply keeps_for_each. intros x Hx. apply unpack_field_other.
      simpl in Hno. rewrite Forall_forall in Hno. apply Hno, Hx. }
  destruct (Hk s0) as [[Hg Hb] _]; [split; reflexivity |].
  change (fix_ s' = fix_ s0) in Hg.
  change (Z.testbit (valid s') 2 = Z.testbit (valid s) 2) in Hb.
  assert (Hbit : has_bit (valid s') TIME_SET = has_bit (valid s) TIME_SET).
  { unfold TIME_SET. rewrite !has_bit_testbit by lia. exact Hb. }
  split; [exact Hrun |]. repeat split.
  - rewrite Hg. reflexivity.
  - rewrite Hg. reflexivity.
  - exact Hbit.
  - intros H0. rewrite Hbit. exact H0.
Qed.


(** ** Fields the legacy decoder skips or trips over *)

(** What the branch for a withheld fix report does when it is reached: the
    payload [" ?"] passes the guard on its first character, and its first
    sub-field is ['?']. *)
Lemma legacy_first_subfield_withheld (s : gps) :
  oldstyle_unpack "GPSD,O= ?" s
  = (Return tt,
     set_fix_ (set_mode (PInt MODE_NO_FIX) (set_time (PFloat 0) (fix_ s))) s).
Proof. reflexivity. Qed.

(** C6. On ['GPSD,O=?'] the guard on the first character of the payload
    skips the field before the fix-report branch is reached: the decode
    returns having assigned only the fix time, and the fix mode keeps its
    previous value, a 3D fix staying a 3D fix. *)
Theorem legacy_withheld_fix_report_keeps_mode (s : gps) :
  oldstyle_unpack "GPSD,O=?" s
  = (Return tt, set_fix_ (set_time (PFloat 0) (fix_ s)) s)
  /\ mode (fix_ (snd (oldstyle_unpack "GPSD,O=?" s))) = mode (fix_ s)
  /\ mode (fix_ (snd (oldstyle_unpack "GPSD,O=?"
             (set_fix_ (set_mode (PInt MODE_3D) gpsfix_init) gps_init))))
     = PInt MODE_3D.
Proof. repeat split. Qed.

(** C9. A field of one character raises [IndexError] at [field[1]], and the
    fields after it are not decoded; a field with an empty payload raises
    it at [data[0]]. *)
Theorem legacy_short_field_raises (s : gps) :
  fst (oldstyle_unpack "GPSD,X,F=/dev/ttyS0" s) = Raise IndexError
  /\ device (snd (oldstyle_unpack "GPSD,X,F=/dev/ttyS0" s)) = device s
  /\ fst (oldstyle_unpack "GPSD,X=,F=/dev/ttyS0" s) = Raise IndexError
  /\ device (snd (oldstyle_unpack "GPSD,X=,F=/dev/ttyS0" s)) = device s.
Proof. repeat split. Qed.

(** An online-status payload that does not convert aborts the decode too. *)
Lemma legacy_online_unparsable_raises (s : gps) (payload : string) :
  String.get 0 payload <> None -> String.get 0 payload <> Some "?"%char ->
  py_float payload = None ->
  fst (unpack_field (String "X" (String "=" payload)) s) = Raise ValueError.
Proof.
  intros H0 Hq Hf. unfold unpack_field, bind. simpl.
  destruct (String.get 0 payload) as [d0 |] eqn:Hd; [| congruence]. simpl.
  destruct (Ascii.eqb_spec d0 "?") as [-> | _]; [congruence |].
  rewrite Hf. reflexivity.
Qed.

(** Fields that are empty, or whose second character is not ['='], are
    skipped. *)
Lemma legacy_shapeless_field_skipped (s : gps) (field : string) (c1 : ascii) :
  field = "" \/ (String.get 1 field = Some c1 /\ c1 <> "="%char) ->
  unpack_field field s = (Return tt, s).
Proof.
  intros [-> | [H1 Hne]]; [reflexivity |].
  unfold unpack_field, bind. destruct (String.eqb field ""); [reflexivity |].
  rewrite H1. simpl. destruct (Ascii.eqb_spec c1 "="); [contradiction | reflexivity].
Qed.

(** ** The time of a structured report *)

(** C4. In a fresh session the fix time is the float not-a-number, so the
    test on the type of the stored fix time sends a text time down the
    numeric branch: the text is stored as the fix time, unconverted, and
    [isotime] is not called. *)
Theorem tpv_text_time_stored_unconverted :
  let r := oldstyle_shim (set_data (Some tpv_text_time) gps_init) in
  fst r = Return tt
  /\ time (fix_ (snd r)) = PStr "2010-04-30T11:48:20.10Z"
  /\ is_float (time (fix_ (snd r))) = false.
Proof. vm_compute. repeat split. Qed.


(** ** The device record *)

Lemma run_bind_return {A B : Type} (m : M A) (k : A -> M B) (s s' : gps) (a : A) :
  m s = (Return a, s') -> bind m k s = k a s'.
Proof. intros H. unfold bind. rewrite H. reflexivity. Qed.

Lemma run_bind_raise {A B : Type} (m : M A) (k : A -> M B) (s s' : gps) (e : exn) :
  m s = (Raise e, s') -> bind m k s = (Raise e, s').
Proof. intros H. unfold bind. rewrite H. reflexivity. Qed.

Lemma class_is_exclusive (d : gmap string pyval) (name other : string) :
  class_is d name = true -> name <> other -> class_is d other = false.
Proof.
  unfold class_is. destruct (d !! "class") as [[| | | | c | |] |]; try discriminate.
  intros H Hne. apply String.eqb_eq in H. subst c.
  apply String.eqb_neq. exact Hne.
Qed.

(** A device record without a path raises [KeyError] from the subscript,
    having assigned nothing but the bitmask. *)
Lemma shim_DEVICE_no_path (d : gmap string pyval) (s : gps) :
  d !! "path" = None ->
  shim_DEVICE d s = (Raise KeyError, set_valid (Z.lor ONLINE_SET DEVICE_SET) s).
Proof. intros H. unfold shim_DEVICE, bind, getitem. simpl. rewrite H. reflexivity. Qed.

(** With a path, the path is stored first; what follows never touches it and
    can only raise [TypeError], from joining driver and subtype. *)
Lemma shim_DEVICE_path (d : gmap string pyval) (p : pyval) (s : gps) :
  d !! "path" = Some p ->
  path (snd (shim_DEVICE d s)) = Some p
  /\ forall e, fst (shim_DEVICE d s) = Raise e -> e = TypeError.
Proof.
  intros H.
  set (s1 := set_path (Some p) (set_valid (Z.lor ONLINE_SET DEVICE_SET) s)).
  assert (Hk : keeps (fun s => path s = Some p) (fun e => e = TypeError)
    (v <- shim_default d "activated" PNone 0 ;; modify (set_activated (Some v)) ;;
     driver <- shim_default d "driver" PNone DEVICEID_SET ;;
     subtype <- shim_default d "subtype" PNone DEVICEID_SET ;;
     modify (set_gps_id driver) ;;
     (if truthy subtype then
        g <- gets gps_id ;; r <- space_plus subtype ;; v <- iadd g r ;;
        modify (set_gps_id v)
      else ret tt) ;;
     v <- shim_default d "native" (PInt 0) 0 ;; modify (set_driver_mode v) ;;
     v <- shim_default d "bps" (PInt 0) 0 ;; modify (set_baudrate v) ;;
     v <- shim_default d "serialmode" (PStr "8N1") 0 ;; modify (set_serialmode (Some v)) ;;
     v <- shim_default d "cycle" NaN 0 ;; modify (set_cycle v) ;;
     v <- shim_default d "mincycle" NaN 0 ;; modify (set_mincycle v))).
  { unfold shim_default, space_plus, iadd.
    repeat keeps_step; try reflexivity; try (intros ? Hp; exact Hp).
    all: intros ? Hp; unfold extend_driver; repeat case_match; exact Hp. }
  match type of Hk with
  | keeps _ _ ?rest => assert (Hrun : shim_DEVICE d s = rest s1)
  end.
  { unfold shim_DEVICE, bind at 1 2 3, getitem. simpl. rewrite H. reflexivity. }
  rewrite Hrun. apply Hk. reflexivity.
Qed.


(** What [read] does with a well-framed structured line the tokenizer
    accepts. *)
Lemma read_structured (status : Z) (line : string) (d : gmap string pyval) (s : gps) :
  0 < status ->
  startswith "{" line = true -> endswith (String.append "}" CRLF) line = true ->
  unpack line = Return d ->
  read status (Some line) s
  = (oldstyle_shim ;; modify (set_newstyle true) ;; or_valid PACKET_SET ;; ret 0)
      (set_data (Some d) (set_response (Some line) s)).
Proof.
  intros Hst Hs He Hu. unfold read, bind at 1, modify at 1.
  destruct (Z.leb_spec status 0) as [? | _]; [lia |].
  unfold bind at 1, gets at 1. session_simpl.
  unfold bind at 1, or_raise at 1, ret at 1. rewrite Hs, He.
  unfold bind at 1, lift, modify at 1. rewrite Hu. reflexivity.
Qed.

Lemma oldstyle_shim_DEVICE (d : gmap string pyval) (s : gps) :
  data s = Some d -> class_is d "DEVICE" = true -> oldstyle_shim s = shim_DEVICE d s.
Proof.
  intros Hd Hc. unfold oldstyle_shim, bind, gets, or_raise. rewrite Hd. simpl.
  rewrite (class_is_exclusive d "DEVICE" "VERSION" Hc), Hc by discriminate.
  reflexivity.
Qed.

(** C7. A DEVICE record without the key 'path' makes the decode raise
    [KeyError], which [next] passes on to the consumer; no path is stored in
    its place. End of stream is the different exception [StopIteration]. With
    the key, the path is stored and [KeyError] is not raised. *)
Theorem device_record_needs_path (status : Z) (line : string)
    (d : gmap string pyval) (s : gps) :
  0 < status ->
  startswith "{" line = true -> endswith (String.append "}" CRLF) line = true ->
  unpack line = Return d ->
  class_is d "DEVICE" = true ->
  let r := next status (Some line) s in
  match d !! "path" with
  | None => fst r = Raise KeyError /\ path (snd r) = path s
  | Some p => path (snd r) = Some p /\ fst r <> Raise KeyError
  end
  /\ fst r <> Raise StopIteration
  /\ fst (next (-1) None s) = Raise StopIteration.
Proof.
  intros Hst Hs He Hu Hc r.
  assert (Hend : fst (next (-1) None s) = Raise StopIteration) by reflexivity.
  assert (Hr : r = next status (Some line) s) by reflexivity. clearbody r.
  unfold next in Hr. unfold bind at 1 in Hr.
  rewrite (read_structured _ _ d) in Hr by assumption.
  set (s1 := set_data (Some d) (set_response (Some line) s)) in Hr.
  assert (Hshim : oldstyle_shim s1 = shim_DEVICE d s1)
    by (apply oldstyle_shim_DEVICE; [reflexivity | exact Hc]).
  destruct (d !! "path") as [p |] eqn:Hp.
  - destruct (shim_DEVICE_path d p s1 Hp) as [Hpath Hexn].
    rewrite <- Hshim in Hpath, Hexn.
    destruct (oldstyle_shim s1) as [[[] | e] s2] eqn:Hrun; simpl in Hpath, Hexn.
    + unfold bind at 1 2 in Hr. rewrite Hrun in Hr.
      subst r. unfold bind, gets, modify, or_valid, ret. simpl.
      destruct (data s2); simpl; [| destruct (response s2); simpl];
        repeat split; try discriminate; assumption.
    + unfold bind at 1 2 in Hr. rewrite Hrun in Hr. subst r. simpl.
      specialize (Hexn e eq_refl). subst e.
      repeat split; try discriminate; assumption.
  - rewrite shim_DEVICE_no_path in Hshim by exact Hp.
    unfold bind at 1 2 in Hr. rewrite Hshim in Hr. subst r. simpl.
    repeat split; try discriminate; assumption.
Qed.


(** ** The legacy fix report *)

Lemma run_bind_modify {B : Type} (f : gps -> gps) (k : unit -> M B) (s : gps) :
  bind (modify f) k s = k tt (f s).
Proof. reflexivity. Qed.

Lemma run_bind_gets {A B : Type} (f : gps -> A) (k : A -> M B) (s : gps) :
  bind (gets f) k s = k (f s) s.
Proof. reflexivity. Qed.

Lemma run_bind_some {A B : Type} (e : exn) (a : A) (k : A -> M B) (s : gps) :
  bind (or_raise e (Some a)) k s = k a s.
Proof. reflexivity. Qed.

Lemma run_bind_ret {A B : Type} (a : A) (k : A -> M B) (s : gps) :
  bind (ret a) k s = k a s.
Proof. reflexivity. Qed.

Lemma set_valid_same (s : gps) : set_valid (Z.lor (valid s) 0) s = s.
Proof. destruct s. unfold set_valid. simpl. rewrite Z.lor_0_r. reflexivity. Qed.

(** The legacy [default] in one equation: the value is the conversion of a
    supplied sub-field and not-a-number otherwise, and the bit is ORed in
    exactly when the sub-field is supplied. *)
Lemma unpack_default_run (fields : list string) (i : nat) (vbit : Z)
    (cnv : string -> option pyval) (w : string) (s : gps) :
  fields !! i = Some w ->
  unpack_default fields i vbit cnv s
  = (Return (value_at cnv fields i),
     set_valid (Z.lor (valid s) (bit_if (supplied cnv fields i) vbit)) s).
Proof.
  intros H. unfold unpack_default, value_at, supplied, bind, or_raise, or_valid.
  rewrite H. simpl. destruct (String.eqb w "?"); simpl.
  - rewrite set_valid_same. reflexivity.
  - destruct (cnv w); simpl; [reflexivity |]. rewrite set_valid_same. reflexivity.
Qed.

Lemma run_bind_default {B : Type} (fields : list string) (i : nat) (vbit : Z)
    (cnv : string -> option pyval) (w : string) (k : pyval -> M B) (s : gps) :
  fields !! i = Some w ->
  bind (unpack_default fields i vbit cnv) k s
  = k (value_at cnv fields i)
      (set_valid (Z.lor (valid s) (bit_if (supplied cnv fields i) vbit)) s).
Proof. intros H. apply run_bind_return, (unpack_default_run _ _ _ _ w), H. Qed.

Lemma run_bind_assoc {A B C : Type} (m : M A) (f : A -> M B) (k : B -> M C) (s : gps) :
  bind (bind m f) k s = bind m (fun a => bind (f a) k) s.
Proof. unfold bind. destruct (m s) as [[a | e] s']; reflexivity. Qed.

Lemma run_bind_lookup {A B : Type} (e : exn) (o : option A) (a : A) (k : A -> M B)
    (s : gps) :
  o = Some a -> bind (or_raise e o) k s = k a s.
Proof. intros ->. reflexivity. Qed.

Lemma run_bind_lift {A B : Type} (o : outcome A) (a : A) (k : A -> M B) (s : gps) :
  o = Return a -> bind (lift o) k s = k a s.
Proof. intros ->. reflexivity. Qed.

(** The session a run has reached, with its updates carried out. *)
Ltac session_norm :=
  lazymatch goal with
  | |- ?m ?st = _ =>
      let st' := eval cbn [mode time ept latitude longitude epx epy altitude epv track speed climb epd eps epc
           online valid fix_ status utc satellites_used xdop ydop vdop tdop pdop hdop gdop epe
           satellites gps_id driver_mode baudrate stopbits cycle mincycle device devices
           version newstyle self_epy path activated serialmode data response set_mode set_time
           set_ept set_latitude set_longitude set_epx set_epy set_altitude set_epv set_track
           set_speed set_climb set_epd set_eps set_epc set_online set_valid set_fix_ set_utc
           set_satellites_used set_xdop set_ydop set_vdop set_pdop set_hdop set_gdop
           set_satellites set_gps_id set_driver_mode set_baudrate set_cycle set_mincycle
           set_device set_version set_newstyle set_self_epy set_path set_activated
           set_serialmode set_data set_response fst snd] in st in
      change (m st) with (m st')
  end.

(** One step of the symbolic run of a decoder on a session. *)
Ltac run_step :=
  first [ rewrite run_bind_modify
        | rewrite run_bind_gets
        | rewrite run_bind_ret
        | erewrite run_bind_lookup by reflexivity
        | erewrite run_bind_default by reflexivity
        | erewrite run_bind_lift by eassumption ];
  cbv beta; session_norm.


Lemma bit_if_0 (b : bool) : bit_if b 0 = 0.
Proof. destruct b; reflexivity. Qed.

(** A fix report of at least fourteen sub-fields, the first of them not
    ['?'], runs to its end provided the time it carries can be printed; the
    session it leaves is described field by field. *)
Lemma unpack_O_run (data : string) (s : gps) :
  let fields := split_ws data in
  (14 <= length fields)%nat ->
  fields !! 0%nat <> Some "?" ->
  (isnan (value_at cnv_float fields 1) = true
   \/ exists u, isotime (value_at cnv_float fields 1) = Return u) ->
  exists s',
    unpack_O data s = (Return tt, s')
    /\ valid s' = Z.lor (Z.land (valid s) (Z.lnot O_MASK)) (fix_report_bits fields)
    /\ time (fix_ s') = value_at cnv_float fields 1
    /\ ept (fix_ s') = value_at cnv_float fields 2
    /\ latitude (fix_ s') = value_at cnv_float fields 3
    /\ longitude (fix_ s') = value_at cnv_float fields 4
    /\ altitude (fix_ s') = value_at cnv_float fields 5
    /\ epx (fix_ s') = value_at cnv_float fields 6
    /\ self_epy s' = Some (value_at cnv_float fields 6)
    /\ epv (fix_ s') = value_at cnv_float fields 7
    /\ track (fix_ s') = value_at cnv_float fields 8
    /\ speed (fix_ s') = value_at cnv_float fields 9
    /\ climb (fix_ s') = value_at cnv_float fields 10
    /\ epd (fix_ s') = value_at cnv_float fields 11
    /\ eps (fix_ s') = value_at cnv_float fields 12
    /\ epc (fix_ s') = value_at cnv_float fields 13.
Proof.
  intros fields Hlen H0 Htime. unfold unpack_O. fold fields. clearbody fields.
  destruct fields as [| w0 fields]; [simpl in Hlen; lia |].
  do 13 (destruct fields as [| ? fields]; [simpl in Hlen; lia |]).
  destruct (String.eqb_spec w0 "?") as [-> | Hw0]; [contradiction H0; reflexivity |].
  apply String.eqb_neq in Hw0.
  unfold clear_valid, assign_fix, or_valid.
  assert (Hmode : forall (c : bool) (a b : pyval),
             (if c then modify (fun s1 => set_fix_ (set_mode a (fix_ s1)) s1)
              else modify (fun s1 => set_fix_ (set_mode b (fix_ s1)) s1))
             = modify (fun s1 => set_fix_ (set_mode (if c then a else b) (fix_ s1)) s1))
    by (intros [] ? ?; reflexivity).
  assert (Hu : isnan (value_at cnv_float
                        (w0 :: s0 :: s1 :: s2 :: s3 :: s4 :: s5 :: s6 :: s7 :: s8 :: s9
                            :: s10 :: s11 :: s12 :: fields) 1) = false ->
               exists u, isotime (value_at cnv_float
                        (w0 :: s0 :: s1 :: s2 :: s3 :: s4 :: s5 :: s6 :: s7 :: s8 :: s9
                            :: s10 :: s11 :: s12 :: fields) 1) = Return u).
  { intros Hn. destruct Htime as [Ht | Ht]; [congruence | exact Ht]. }
  clear Htime.
  destruct (isnan (value_at cnv_float _ 1)) eqn:Hn;
    [clear Hu | destruct (Hu eq_refl) as [u Hiso]; clear Hu];
    (destruct fields as [| w14 rest]);
    (eexists; split;
     [ run_step; rewrite Hw0; repeat run_step; rewrite Hn;
       try rewrite run_bind_assoc; repeat run_step;
       cbn [length Nat.ltb Nat.leb]; repeat run_step; rewrite ?Hmode; repeat run_step;
       reflexivity
     | session_simpl; split;
       [ unfold fix_report_bits, mode_supplied, positional_bits;
         cbn [foldr length Nat.ltb Nat.leb bit_if];
         rewrite ?bit_if_0, ?Z.lor_0_r, ?Z.lor_assoc; reflexivity
       | repeat split ] ]).
Qed.


Lemma testbit_bit_if (b : bool) (vbit k : Z) :
  Z.testbit (bit_if b vbit) k = b && Z.testbit vbit k.
Proof. destruct b; simpl; [reflexivity | apply Z.bits_0]. Qed.

(** Bits of the named constants are computed; bits of the session's
    bitmask are left alone. *)
Ltac eval_const_bits :=
  repeat match goal with
  | |- context [Z.testbit ?c ?k] =>
      let v := eval vm_compute in (Z.testbit c k) in
      lazymatch v with
      | true => change (Z.testbit c k) with true
      | false => change (Z.testbit c k) with false
      end
  end.

Ltac bool_simpl :=
  rewrite ?andb_false_r, ?andb_true_r, ?orb_false_r, ?orb_false_l, ?andb_false_l,
    ?andb_true_l; cbn [negb].

(** The bits of a fix report lie within the group it clears. *)
Lemma fix_report_bits_within (fields : list string) (k : Z) :
  Z.testbit O_MASK k = false -> Z.testbit (fix_report_bits fields) k = false.
Proof.
  unfold O_MASK, fix_report_bits, positional_bits. cbn [foldr].
  rewrite !Z.lor_spec, !testbit_bit_if, Z.bits_0. intros H.
  repeat (apply orb_false_elim in H; destruct H as [? H]).
  repeat match goal with Hb : Z.testbit _ k = false |- _ => rewrite Hb; clear Hb end.
  bool_simpl. reflexivity.
Qed.

(** After clearing the group and ORing in the report's bits, each
    positional bit, and the mode bit, reads back as the report decided it,
    whatever the bitmask was before. *)
Lemma rederived_positional (v : Z) (fields : list string) (i : nat) (vbit : Z) :
  (i, vbit) ∈ positional_bits ->
  has_bit (Z.lor (Z.land v (Z.lnot O_MASK)) (fix_report_bits fields)) vbit
  = supplied cnv_float fields i.
Proof.
  unfold positional_bits. intros H.
  repeat (apply elem_of_cons in H as [[= -> ->] | H]);
    [.. | apply elem_of_nil in H; contradiction];
    match goal with
    | |- has_bit _ ?c = _ => unfold c; rewrite has_bit_testbit by lia
    end;
    unfold fix_report_bits, positional_bits; cbn [foldr];
    rewrite !Z.lor_spec, Z.land_spec, Z.lnot_spec, !testbit_bit_if, Z.bits_0 by lia;
    eval_const_bits; bool_simpl; reflexivity.
Qed.

Lemma rederived_mode (v : Z) (fields : list string) :
  has_bit (Z.lor (Z.land v (Z.lnot O_MASK)) (fix_report_bits fields)) MODE_SET
  = mode_supplied fields.
Proof.
  unfold MODE_SET. rewrite has_bit_testbit by lia.
  unfold fix_report_bits, positional_bits. cbn [foldr].
  rewrite !Z.lor_spec, Z.land_spec, Z.lnot_spec, !testbit_bit_if, Z.bits_0 by lia.
  eval_const_bits. bool_simpl. reflexivity.
Qed.

(** Outside the group nothing changes. *)
Lemma rederived_outside (v : Z) (fields : list string) (k : Z) :
  Z.testbit O_MASK k = false ->
  Z.testbit (Z.lor (Z.land v (Z.lnot O_MASK)) (fix_report_bits fields)) k
  = Z.testbit v k.
Proof.
  intros H. destruct (Z.ltb_spec k 0) as [Hneg | Hk].
  - rewrite !Z.testbit_neg_r by exact Hneg. reflexivity.
  - rewrite Z.lor_spec, Z.land_spec, Z.lnot_spec, H by exact Hk.
    rewrite (fix_report_bits_within fields k H). bool_simpl. reflexivity.
Qed.

(** How [oldstyle_unpack] reaches the fix-report branch. *)
Lemma oldstyle_unpack_fix_report (buf : string) (c : ascii) (data : string) (s : gps) :
  split_on "," (strip buf) = ["GPSD"; String c (String "=" data)] ->
  upper c = "O"%char ->
  String.get 0 data <> None -> String.get 0 data <> Some "?"%char ->
  oldstyle_unpack buf s
  = (unpack_O data ;; ret tt) (set_fix_ (set_time (PFloat 0) (fix_ s)) s).
Proof.
  intros Hsplit Hc Hd Hq. unfold oldstyle_unpack, assign_fix.
  rewrite run_bind_modify, Hsplit. cbn [String.eqb Ascii.eqb Bool.eqb for_each].
  unfold unpack_field. cbn [String.eqb String.get]. unfold bind at 2.
  cbn [or_raise ret Ascii.eqb Bool.eqb negb]. unfold bind at 2. cbn [or_raise ret].
  rewrite Hc. cbn [drop_chars].
  destruct (String.get 0 data) as [d0 |] eqn:Hd0; [| congruence].
  unfold bind at 2. cbn [or_raise ret].
  destruct (Ascii.eqb_spec d0 "?") as [-> | _]; [congruence |].
  reflexivity.
Qed.


(** C1, as the code has it. A message whose one field is a fix report of at
    least fourteen sub-fields, the payload not starting with ['?'] and the
    first sub-field not ['?'], decodes to its end (the time it carries being
    printable). The bits outside the fix-report group are untouched; each of
    the eleven positional bits of the group is set afterwards exactly when
    its sub-field supplied a parsable value, whatever the bit was before, so
    a sub-field that is now ['?'] or unparsable leaves its bit absent; the
    mode bit is set exactly when sub-field 14 supplied a parsable integer,
    or when there is no sub-field 14. *)
Theorem fix_report_rederives_bits (buf : string) (c : ascii) (data : string) (s : gps) :
  split_on "," (strip buf) = ["GPSD"; String c (String "=" data)] ->
  upper c = "O"%char ->
  String.get 0 data <> Some "?"%char ->
  let fields := split_ws data in
  (14 <= length fields)%nat ->
  fields !! 0%nat <> Some "?" ->
  (isnan (value_at cnv_float fields 1) = true
   \/ exists u, isotime (value_at cnv_float fields 1) = Return u) ->
  exists s',
    oldstyle_unpack buf s = (Return tt, s')
    /\ valid s' = Z.lor (Z.land (valid s) (Z.lnot O_MASK)) (fix_report_bits fields)
    /\ (forall k, Z.testbit O_MASK k = false ->
          Z.testbit (valid s') k = Z.testbit (valid s) k)
    /\ (forall i vbit, (i, vbit) ∈ positional_bits ->
          has_bit (valid s') vbit = supplied cnv_float fields i)
    /\ (forall i vbit, (i, vbit) ∈ positional_bits ->
          supplied cnv_float fields i = false -> has_bit (valid s') vbit = false)
    /\ has_bit (valid s') MODE_SET = mode_supplied fields.
Proof.
  intros Hsplit Hc Hq fields Hlen H0 Htime.
  assert (Hd : String.get 0 data <> None).
  { destruct data; [simpl in Hlen; lia | discriminate]. }
  destruct (unpack_O_run data (set_fix_ (set_time (PFloat 0) (fix_ s)) s) Hlen H0 Htime)
    as (s' & Hrun & Hvalid & _).
  exists s'. fold fields in Hvalid. cbn [valid set_fix_] in Hvalid.
  split.
  { rewrite (oldstyle_unpack_fix_report buf c data) by assumption.
    rewrite (run_bind_return _ _ _ _ _ Hrun). reflexivity. }
  split; [exact Hvalid |]. rewrite Hvalid.
  split; [intros k Hk; apply rederived_outside, Hk |].
  split; [intros i vbit Hin; apply rederived_positional, Hin |].
  split; [intros i vbit Hin <-; apply rederived_positional, Hin |].
  apply rederived_mode.
Qed.


(** ** The shared default rule *)


(** ** Bits across the two formats *)

Lemma valid_within_testbit (mask : Z) (s : gps) (k : Z) :
  valid_within mask s -> Z.testbit mask k = false -> Z.testbit (valid s) k = false.
Proof.
  unfold valid_within. intros H Hm. destruct (Z.ltb_spec k 0) as [Hneg | Hk].
  - apply Z.testbit_neg_r, Hneg.
  - assert (Hb : Z.testbit (Z.land (valid s) (Z.lnot mask)) k = false)
      by (rewrite H; apply Z.bits_0).
    rewrite Z.land_spec, Z.lnot_spec, Hm in Hb by exact Hk.
    rewrite andb_true_r in Hb. exact Hb.
Qed.

Lemma valid_within_or (mask vbit : Z) (s : gps) :
  Z.land vbit (Z.lnot mask) = 0 ->
  valid_within mask s -> valid_within mask (set_valid (Z.lor (valid s) vbit) s).
Proof.
  unfold valid_within. intros Hv H. cbn [valid set_valid].
  rewrite Z.land_lor_distr_l, H, Hv. reflexivity.
Qed.

(** A first assignment that establishes [I], followed by a program that
    keeps it. *)
Lemma keeps_established {A : Type} (I : gps -> Prop) (E : exn -> Prop)
    (f : gps -> gps) (k : unit -> M A) (s : gps) :
  (forall s0, I (f s0)) -> keeps I E (k tt) ->
  I (snd (bind (modify f) k s))
  /\ (forall e, fst (bind (modify f) k s) = Raise e -> E e).
Proof. intros Hf Hk. rewrite run_bind_modify. apply Hk, Hf. Qed.

(** Side conditions of a [keeps] derivation about the bitmask. *)
Ltac keeps_side :=
  first [ exact I
        | intros; exact I
        | intros ?; apply valid_within_or; reflexivity
        | intros ? Hkept; exact Hkept ].

(** Once the TPV branch has assigned the bitmask, the rest of the branch
    only ORs in bits of the TPV group, whether it returns or raises. *)
Lemma shim_TPV_within (d : gmap string pyval) (s : gps) :
  valid_within TPV_MASK (snd (shim_TPV d s)).
Proof.
  unfold shim_TPV.
  apply (keeps_established (valid_within TPV_MASK) (fun _ => True)).
  - intros s0. reflexivity.
  - unfold shim_default, encode_ascii. repeat keeps_step; keeps_side.
Qed.


Lemma bit_set_or (k vbit : Z) (s : gps) :
  bit_set k s -> bit_set k (set_valid (Z.lor (valid s) vbit) s).
Proof.
  unfold bit_set. cbn [valid set_valid]. intros H. rewrite Z.lor_spec, H. reflexivity.
Qed.

Lemma bit_set_clear (k mask : Z) (s : gps) :
  Z.testbit mask k = false ->
  bit_set k s -> bit_set k (set_valid (Z.land (valid s) (Z.lnot mask)) s).
Proof.
  unfold bit_set. cbn [valid set_valid]. intros Hm H.
  assert (Hk : 0 <= k).
  { destruct (Z.ltb_spec k 0) as [Hneg | Hk]; [| exact Hk].
    rewrite Z.testbit_neg_r in H by exact Hneg. discriminate. }
  rewrite Z.land_spec, Z.lnot_spec, H, Hm by exact Hk. reflexivity.
Qed.

(** Side conditions of a [keeps] derivation about one bit that stays set. *)
Ltac keeps_bit_side Hm :=
  first [ exact I
        | intros; exact I
        | intros ?; apply bit_set_or
        | intros ?; apply bit_set_clear; exact Hm
        | intros ? Hkept; exact Hkept ].

(** The TPV branch sets the online bit and never clears it again. *)
Lemma shim_TPV_online (d : gmap string pyval) (s : gps) :
  bit_set 1 (snd (shim_TPV d s)).
Proof.
  unfold shim_TPV.
  apply (keeps_established (bit_set 1) (fun _ => True)).
  - intros s0. reflexivity.
  - unfold shim_default, encode_ascii.
    repeat keeps_step; keeps_bit_side (eq_refl false).
Qed.

(** The legacy decoder clears no bit outside the fix-report group, whether
    it returns or raises. *)
Lemma oldstyle_unpack_keeps_bit (k : Z) (buf : string) :
  Z.testbit O_MASK k = false ->
  keeps (bit_set k) (fun _ => True) (oldstyle_unpack buf).
Proof.
  intros Hm. unfold oldstyle_unpack. apply keeps_bind.
  - apply keeps_assign_fix. intros ? H. exact H.
  - intros _. destruct (split_on "," (strip buf)) as [| first rest].
    + apply keeps_raise. exact I.
    + destruct (String.eqb first "GPSD"); [| apply keeps_ret].
      apply keeps_for_each. intros field _.
      unfold unpack_field, unpack_Y, unpack_O, unpack_default, clear_valid.
      repeat keeps_step; keeps_bit_side Hm.
Qed.

Lemma oldstyle_shim_TPV (d : gmap string pyval) (s : gps) :
  data s = Some d -> class_is d "TPV" = true -> oldstyle_shim s = shim_TPV d s.
Proof.
  intros Hd Hc. unfold oldstyle_shim, bind, gets, or_raise. rewrite Hd. simpl.
  rewrite (class_is_exclusive d "TPV" "VERSION" Hc),
    (class_is_exclusive d "TPV" "DEVICE" Hc), Hc by discriminate.
  reflexivity.
Qed.


(** C2, as the code has it. From any session, the legacy decoder clears no
    bit outside the fix-report group: a bit set before the message is still
    set after it. A structured TPV record, in contrast, assigns the bitmask
    anew: after it is read the online bit is set and no bit outside the TPV
    group (online, the fix-report group, packet) is set, so the satellite
    bit a legacy 'Y' message had set is cleared. *)
Theorem cross_format_bits (s : gps) :
  (forall buf k,
     Z.testbit O_MASK k = false -> Z.testbit (valid s) k = true ->
     Z.testbit (valid (snd (oldstyle_unpack buf s))) k = true)
  /\ (forall status line d,
        0 < status ->
        startswith "{" line = true -> endswith (String.append "}" CRLF) line = true ->
        unpack line = Return d ->
        class_is d "TPV" = true ->
        let s' := snd (read status (Some line) s) in
        (forall k, Z.testbit TPV_MASK k = false -> Z.testbit (valid s') k = false)
        /\ has_bit (valid s') SATELLITE_SET = false
        /\ has_bit (valid s') ONLINE_SET = true).
Proof.
  split.
  - intros buf k Hm Hs. apply (oldstyle_unpack_keeps_bit k buf Hm s Hs).
  - intros status line d Hst Hb He Hu Hc s'.
    assert (Hs' : s' = snd (read status (Some line) s)) by reflexivity. clearbody s'.
    rewrite (read_structured _ _ d) in Hs' by assumption.
    set (s1 := set_data (Some d) (set_response (Some line) s)) in Hs'.
    assert (Hshim : oldstyle_shim s1 = shim_TPV d s1)
      by (apply oldstyle_shim_TPV; [reflexivity | exact Hc]).
    pose proof (shim_TPV_within d s1) as Hw.
    pose proof (shim_TPV_online d s1) as Ho.
    rewrite <- Hshim in Hw, Ho.
    assert (Hboth : valid_within TPV_MASK s' /\ bit_set 1 s').
    { unfold bind at 1 in Hs'.
      destruct (oldstyle_shim s1) as [[[] | e] s2]; cbn [snd] in Hw, Ho; subst s'.
      - split.
        + apply (valid_within_or TPV_MASK PACKET_SET (set_newstyle true s2));
            [reflexivity | exact Hw].
        + apply (bit_set_or 1 PACKET_SET (set_newstyle true s2)). exact Ho.
      - split; assumption. }
    destruct Hboth as [Hw' Ho'].
    split; [intros k Hk; apply (valid_within_testbit TPV_MASK), Hk; exact Hw' |].
    split.
    + unfold SATELLITE_SET. rewrite has_bit_testbit by lia.
      apply (valid_within_testbit TPV_MASK); [exact Hw' | reflexivity].
    + unfold ONLINE_SET. rewrite has_bit_testbit by lia. exact Ho'.
Qed.

(** ** The dispatcher *)

(** X1. A line that is neither a brace-framed record nor starts with the
    legacy sentinel is not decoded: [read] returns 0 and the session is as it
    was, the stored response apart; the packet bit is not set. *)
Theorem read_unrecognised (status : Z) (line : string) (s : gps) :
  0 < status ->
  startswith "{" line && endswith (String.append "}" CRLF) line = false ->
  startswith "GPSD" line = false ->
  read status (Some line) s = (Return 0, set_response (Some line) s).
Proof.
  intros Hst Hb Hg. unfold read. rewrite run_bind_modify.
  destruct (Z.leb_spec status 0) as [? | _]; [lia |].
  rewrite run_bind_gets. cbn [response set_response]. rewrite run_bind_some.
  rewrite Hb, Hg. reflexivity.
Qed.

(** X2. When the transport reports no data (a status of zero or less),
    [read] returns that status and decodes nothing; [next] turns it into
    [StopIteration] exactly when the status is -1. *)
Theorem read_without_data (status : Z) (line : option string) (s : gps) :
  status <= 0 ->
  read status line s
  = (Return status,
     match line with Some r => set_response (Some r) s | None => s end)
  /\ (fst (next status line s) = Raise StopIteration <-> status = -1).
Proof.
  intros Hst.
  assert (Hread : read status line s
            = (Return status,
               match line with Some r => set_response (Some r) s | None => s end)).
  { unfold read. rewrite run_bind_modify.
    destruct (Z.leb_spec status 0) as [_ | ?]; [reflexivity | lia]. }
  split; [exact Hread |].
  unfold next. rewrite (run_bind_return _ _ _ _ _ Hread).
  destruct (Z.eqb_spec status (-1)) as [-> | Hne].
  - split; reflexivity.
  - split; [| intros ->; contradiction].
    rewrite run_bind_gets.
    destruct (data _); [discriminate |].
    rewrite run_bind_gets. destruct (response _); discriminate.
Qed.

(** X3. A line that starts with the four sentinel letters but whose first
    comma-separated field is not exactly the sentinel takes the legacy path
    of [read] and decodes no field: the fix time is zeroed and the packet
    bit is set, nothing else changes. *)
Theorem read_sentinel_prefix_only (status : Z) (line first : string)
    (rest : list string) (s : gps) :
  0 < status ->
  startswith "{" line && endswith (String.append "}" CRLF) line = false ->
  startswith "GPSD" line = true ->
  split_on "," (strip line) = first :: rest -> first <> "GPSD" ->
  read status (Some line) s
  = (Return 0,
     set_valid (Z.lor (valid s) PACKET_SET)
       (set_fix_ (set_time (PFloat 0) (fix_ s)) (set_response (Some line) s))).
Proof.
  intros Hst Hb Hg Hsplit Hne. unfold read. rewrite run_bind_modify.
  destruct (Z.leb_spec status 0) as [? | _]; [lia |].
  rewrite run_bind_gets. cbn [response set_response]. rewrite run_bind_some.
  rewrite Hb, Hg. unfold oldstyle_unpack, assign_fix. rewrite run_bind_assoc.
  rewrite run_bind_modify, Hsplit.
  apply String.eqb_neq in Hne. rewrite Hne. reflexivity.
Qed.

(** X4. A VERSION record is stored whole as the version record; besides,
    only the tokenized record, the response, the format flag and the packet
    bit change. *)
Theorem version_record_stored (status : Z) (line : string) (d : gmap string pyval)
    (s : gps) :
  0 < status ->
  startswith "{" line = true -> endswith (String.append "}" CRLF) line = true ->
  unpack line = Return d ->
  class_is d "VERSION" = true ->
  read status (Some line) s
  = (Return 0,
     set_valid (Z.lor (valid s) PACKET_SET)
       (set_newstyle true
          (set_version (PDict d) (set_data (Some d) (set_response (Some line) s))))).
Proof.
  intros Hst Hb He Hu Hc. rewrite (read_structured _ _ d) by assumption.
  unfold oldstyle_shim. rewrite run_bind_assoc, run_bind_gets.
  cbn [data set_data]. rewrite run_bind_assoc, run_bind_some, Hc. reflexivity.
Qed.

(** X5. A structured record of a kind other than VERSION, DEVICE, TPV and
    SKY is accepted and ignored: [read] returns 0, the session is marked as
    structured and the packet bit is set, nothing is decoded. *)
Theorem unknown_record_ignored (status : Z) (line : string) (d : gmap string pyval)
    (s : gps) :
  0 < status ->
  startswith "{" line = true -> endswith (String.append "}" CRLF) line = true ->
  unpack line = Return d ->
  class_is d "VERSION" = false -> class_is d "DEVICE" = false ->
  class_is d "TPV" = false -> class_is d "SKY" = false ->
  read status (Some line) s
  = (Return 0,
     set_valid (Z.lor (valid s) PACKET_SET)
       (set_newstyle true (set_data (Some d) (set_response (Some line) s)))).
Proof.
  intros Hst Hb He Hu H1 H2 H3 H4. rewrite (read_structured _ _ d) by assumption.
  unfold oldstyle_shim. rewrite run_bind_assoc, run_bind_gets.
  cbn [data set_data]. rewrite run_bind_assoc, run_bind_some, H1, H2, H3, H4.
  reflexivity.
Qed.

(** X6. The legacy decoder never writes what only the structured decoder
    maintains: whatever the message, and whether the decode returns or
    raises, the satellites-used count (not recounted after a 'Y' field), the
    dilution-of-precision figures, the version record, the format flag, the
    tokenized record and the device attributes are as before. *)
Theorem legacy_leaves_structured_view (buf : string) (s : gps) :
  structured_view (snd (oldstyle_unpack buf s)) = structured_view s.
Proof.
  assert (Hk : keeps (fun s0 => structured_view s0 = structured_view s) (fun _ => True)
                 (oldstyle_unpack buf)).
  { unfold oldstyle_unpack. apply keeps_bind.
    - apply keeps_assign_fix. intros ? H. exact H.
    - intros _. destruct (split_on "," (strip buf)) as [| first rest].
      + apply keeps_raise. exact I.
      + destruct (String.eqb first "GPSD"); [| apply keeps_ret].
        apply keeps_for_each. intros field _.
        unfold unpack_field, unpack_Y, unpack_O, unpack_default, clear_valid,
          or_valid, assign_fix.
        repeat keeps_step;
          first [exact I | intros; exact I | intros ? Hkept; exact Hkept]. }
  apply Hk. reflexivity.
Qed.

(** ** The satellite list *)

Lemma bind_return_inv {A B : Type} (m : M A) (k : A -> M B) (s s' : gps) (b : B) :
  bind m k s = (Return b, s') ->
  exists a s1, m s = (Return a, s1) /\ k a s1 = (Return b, s').
Proof.
  unfold bind. destruct (m s) as [[a | e] s1]; [| discriminate].
  intros H. exists a, s1. split; [reflexivity | exact H].
Qed.

Lemma bind_raise_inv {A B : Type} (m : M A) (k : A -> M B) (s s' : gps) (e : exn) :
  bind m k s = (Raise e, s') ->
  m s = (Raise e, s') \/ exists a s1, m s = (Return a, s1) /\ k a s1 = (Raise e, s').
Proof.
  unfold bind. destruct (m s) as [[a | e0] s1].
  - intros H. right. exists a, s1. split; [reflexivity | exact H].
  - intros [= -> ->]. left. reflexivity.
Qed.

(** The loop over [range(d1)] builds one record per index, and needs a block
    for each. *)
Lemma newsats_of_length (blocks : list string) (n a : nat) (l : list satellite) :
  newsats_of blocks (seq a n) = Return l ->
  length l = n /\ (n = 0%nat \/ (a + n <= length blocks)%nat).
Proof.
  revert a l. induction n as [| n IH]; intros a l; simpl.
  - intros [= <-]. split; [reflexivity | left; reflexivity].
  - destruct (blocks !! a) as [block |] eqn:Hb; [| discriminate].
    destruct (map_int (split_ws block)) as [args |]; [| discriminate]. simpl.
    destruct (make_satellite args) as [sat |]; [| discriminate]. simpl.
    destruct (newsats_of blocks (seq (S a) n)) as [rest |] eqn:Hr; [| discriminate].
    simpl. intros [= <-]. destruct (IH _ _ Hr) as [Hlen Hn].
    apply lookup_lt_Some in Hb. split; [simpl; lia | right].
    destruct Hn as [-> | Hn]; lia.
Qed.

(** X7. The legacy satellite list is replaced as a whole or not at all: if
    the 'Y' branch raises (no count, a count that is no integer, fewer blocks
    than announced, a block that is not four or five integers) the session is
    untouched; if it returns, the new sequence has exactly as many records
    as the count announced, that many blocks were there, and only the
    sequence and the satellite bit have changed. *)
Theorem satellite_list_all_or_nothing (data : string) (s : gps) :
  match unpack_Y data s with
  | (Return _, s') =>
      exists first blocks w d1,
        split_on ":" data = first :: blocks
        /\ last (split_ws first) = Some w /\ py_int w = Some d1
        /\ length (satellites s') = Z.to_nat d1
        /\ (d1 <= Z.of_nat (length blocks))
        /\ s' = set_valid (Z.lor (valid s) SATELLITE_SET)
                  (set_satellites (satellites s') s)
  | (Raise _, s') => s' = s
  end.
Proof.
  unfold unpack_Y. destruct (split_on ":" data) as [| first blocks]; [reflexivity |].
  unfold bind, or_raise, lift, modify, or_valid, ret, raise.
  destruct (last (split_ws first)) as [w |] eqn:Hw; [| reflexivity].
  destruct (py_int w) as [d1 |] eqn:Hd; [| reflexivity].
  destruct (newsats_of blocks (seq 0 (Z.to_nat d1))) as [l |] eqn:Hl; [| reflexivity].
  exists first, blocks, w, d1. destruct (newsats_of_length _ _ _ _ Hl) as [Hlen Hn].
  repeat split; try assumption.
  destruct Hn as [Hn | Hn]; lia.
Qed.

(** ** The sky report *)

Lemma set_satellites_used_same (s : gps) :
  set_satellites_used (satellites_used s + 0) s = s.
Proof. destruct s. unfold set_satellites_used. simpl. rewrite Z.add_0_r. reflexivity. Qed.

(** The counting loop adds the number of satellites whose [used] is true. *)
Lemma count_used_run (sats : list satellite) (s : gps) :
  for_each sats count_used s
  = (Return tt,
     set_satellites_used
       (satellites_used s
        + Z.of_nat (length (List.filter (fun sat => truthy (used sat)) sats))) s).
Proof.
  revert s. induction sats as [| sat sats IH]; intros s.
  - simpl. rewrite set_satellites_used_same. reflexivity.
  - cbn [for_each List.filter]. unfold count_used at 1.
    destruct (truthy (used sat)).
    + rewrite run_bind_modify, IH. cbn [satellites_used set_satellites_used length].
      f_equal. unfold set_satellites_used. cbn. f_equal. lia.
    + rewrite run_bind_ret. apply IH.
Qed.

(** The loop over the dilution-of-precision keys never raises and leaves
    the satellite sequence alone. *)
Lemma sky_dops_keep_satellites (d : gmap string pyval) (l : list satellite) :
  keeps (fun s => satellites s = l) (fun _ => False)
    (for_each ["x"; "y"; "v"; "h"; "p"; "g"] (fun attrp =>
       v <- shim_default d (String.append attrp "dop") NaN DOP_SET ;;
       modify (setattr (String.append attrp "dop") v))).
Proof.
  apply keeps_for_each. intros attrp _. unfold shim_default.
  repeat keeps_step;
    try (intros ? Hkept; unfold setattr; repeat case_match; exact Hkept).
Qed.

(** X8. After a SKY record that decodes, the satellites-used count is the
    number of satellites in the sequence whose [used] is true, and the
    bitmask is exactly online and satellite: the dilution-of-precision bit
    ORed in for the figures is overwritten. A SKY record without a satellite
    array always decodes and keeps the sequence, recounting it. *)
Theorem sky_report_recounts (d : gmap string pyval) (s : gps) :
  (forall s', shim_SKY d s = (Return tt, s') ->
     satellites_used s'
     = Z.of_nat (length (List.filter (fun sat => truthy (used sat)) (satellites s')))
     /\ valid s' = Z.lor ONLINE_SET SATELLITE_SET)
  /\ (d !! "satellites" = None ->
      fst (shim_SKY d s) = Return tt
      /\ satellites (snd (shim_SKY d s)) = satellites s).
Proof.
  split.
  - intros s' Hrun. unfold shim_SKY in Hrun.
    apply bind_return_inv in Hrun as (_ & s1 & _ & Hrun).
    apply bind_return_inv in Hrun as (_ & s2 & _ & Hrun).
    rewrite run_bind_modify, run_bind_gets in Hrun.
    cbn [satellites set_satellites_used] in Hrun.
    rewrite (run_bind_return _ _ _ _ _ (count_used_run _ _)) in Hrun.
    injection Hrun as <-. cbn. split; [lia | reflexivity].
  - intros Hnone.
    destruct (sky_dops_keep_satellites d (satellites s) s eq_refl) as [Hsat Hex].
    unfold shim_SKY.
    destruct (for_each _ _ s) as [[[] | e] s1] eqn:Hdops;
      [| exfalso; apply (Hex e); reflexivity].
    cbn [snd] in Hsat.
    rewrite (run_bind_return _ _ _ _ _ Hdops), Hnone, run_bind_ret.
    rewrite run_bind_modify, run_bind_gets.
    rewrite (run_bind_return _ _ _ _ _ (count_used_run _ _)).
    split; [reflexivity | exact Hsat].
Qed.

(** ** The structured records, key by key *)

(** The structured [default] in one equation. *)
Lemma run_bind_shim_default {B : Type} (d : gmap string pyval) (k : string)
    (dflt : pyval) (vbit : Z) (kk : pyval -> M B) (s : gps) :
  bind (shim_default d k dflt vbit) kk s
  = kk (default dflt (d !! k))
       (set_valid (Z.lor (valid s) (bit_if (has_key d k) vbit)) s).
Proof.
  unfold shim_default, has_key. destruct (d !! k); simpl.
  - unfold or_valid. rewrite run_bind_assoc, run_bind_modify, run_bind_ret. reflexivity.
  - rewrite run_bind_ret, set_valid_same. reflexivity.
Qed.

Ltac shim_step :=
  first [ rewrite run_bind_modify
        | rewrite run_bind_gets
        | rewrite run_bind_ret
        | rewrite run_bind_shim_default ];
  cbv beta; session_norm.

Ltac bool_simpl_or :=
  rewrite ?andb_false_r, ?andb_true_r, ?orb_false_r, ?orb_false_l, ?andb_false_l,
    ?andb_true_l, ?orb_true_r, ?orb_true_l; cbn [negb].

(** X9. A TPV record without a time always decodes. The bitmask becomes
    the online bit and the bits of the keys present (so the bit of a present
    key is set, and the time bit is not), the UTC text becomes [None], the
    fix time is kept, every float fix field holds its key's value or
    not-a-number, and the mode holds its key's value or 0. *)
Theorem tpv_without_time_decodes (d : gmap string pyval) (s : gps) :
  d !! "time" = None ->
  exists s',
    shim_TPV d s = (Return tt, s')
    /\ valid s' = Z.lor ONLINE_SET (tpv_bits d)
    /\ (forall k vbit, (k, vbit) ∈ tpv_keys -> has_key d k = true ->
          has_bit (valid s') vbit = true)
    /\ has_bit (valid s') TIME_SET = false
    /\ utc s' = PNone
    /\ time (fix_ s') = time (fix_ s)
    /\ mode (fix_ s') = default (PInt 0) (d !! "mode")
    /\ (forall k field, (k, field) ∈ tpv_fields ->
          field (fix_ s') = default NaN (d !! k)).
Proof.
  intros Ht. eexists. split.
  { unfold shim_TPV, assign_fix. do 2 shim_step. rewrite Ht. cbn [default].
    repeat shim_step. reflexivity. }
  session_simpl.
  assert (Hv : forall b, bit_if b 0 = 0) by (intros []; reflexivity).
  assert (Hvalid :
    Z.lor (Z.lor (Z.lor (Z.lor (Z.lor (Z.lor (Z.lor (Z.lor (Z.lor (Z.lor (Z.lor
      (Z.lor (Z.lor (Z.lor (Z.lor ONLINE_SET (bit_if (has_key d "time") TIME_SET))
      (bit_if (has_key d "ept") TIMERR_SET)) (bit_if (has_key d "lat") LATLON_SET))
      (bit_if (has_key d "lon") 0)) (bit_if (has_key d "alt") ALTITUDE_SET))
      (bit_if (has_key d "epx") HERR_SET)) (bit_if (has_key d "epy") HERR_SET))
      (bit_if (has_key d "epv") VERR_SET)) (bit_if (has_key d "track") TRACK_SET))
      (bit_if (has_key d "speed") SPEED_SET)) (bit_if (has_key d "climb") CLIMB_SET))
      (bit_if (has_key d "epd") 0)) (bit_if (has_key d "eps") SPEEDERR_SET))
      (bit_if (has_key d "epc") CLIMBERR_SET)) (bit_if (has_key d "mode") MODE_SET)
    = Z.lor ONLINE_SET (tpv_bits d)).
  { unfold tpv_bits, tpv_keys. cbn [foldr]. unfold has_key at 1. rewrite Ht.
    cbn [bit_if]. rewrite !Hv, !Z.lor_0_r, <- !Z.lor_assoc. reflexivity. }
  split; [exact Hvalid |]. rewrite Hvalid.
  split; [| split; [| repeat split]].
  - unfold tpv_keys. intros k vbit Hin Hk.
    repeat (apply elem_of_cons in Hin as [[= -> ->] | Hin]);
      [.. | apply elem_of_nil in Hin; contradiction];
      match goal with
      | |- has_bit _ ?c = _ => unfold c; rewrite has_bit_testbit by lia
      end;
      unfold tpv_bits, tpv_keys; cbn [foldr];
      rewrite !Z.lor_spec, !testbit_bit_if, Z.bits_0, Hk;
      eval_const_bits; bool_simpl_or; reflexivity.
  - unfold TIME_SET. rewrite has_bit_testbit by lia.
    unfold tpv_bits, tpv_keys. cbn [foldr].
    rewrite !Z.lor_spec, !testbit_bit_if, Z.bits_0.
    eval_const_bits. bool_simpl_or. reflexivity.
  - unfold tpv_fields. intros k field Hin.
    repeat (apply elem_of_cons in Hin as [[= -> ->] | Hin]); try reflexivity.
    apply elem_of_nil in Hin. contradiction.
Qed.

(** X10. A DEVICE record with a non-empty subtype but no driver raises
    [TypeError], from appending to the [None] identifier: the path is
    stored, the identifier is left [None], and the attributes after it
    (native mode, baud rate) are not updated. *)
Theorem device_subtype_needs_driver (d : gmap string pyval) (p : pyval)
    (subtype : string) (s : gps) :
  d !! "path" = Some p -> d !! "driver" = None ->
  d !! "subtype" = Some (PStr subtype) -> subtype <> "" ->
  exists s',
    shim_DEVICE d s = (Raise TypeError, s')
    /\ path s' = Some p
    /\ gps_id s' = PNone
    /\ driver_mode s' = driver_mode s
    /\ baudrate s' = baudrate s.
Proof.
  intros Hp Hd Hs Hne. apply String.eqb_neq in Hne. eexists. split.
  { unfold shim_DEVICE, getitem.
    rewrite run_bind_modify, Hp, run_bind_some, run_bind_modify.
    do 4 shim_step. rewrite Hd, Hs. cbn [default from_option id truthy]. rewrite Hne. cbn [negb].
    shim_step. rewrite !run_bind_assoc, run_bind_gets. cbn [gps_id set_gps_id].
    unfold space_plus. rewrite run_bind_assoc, run_bind_ret. unfold iadd.
    reflexivity. }
  session_simpl. repeat split.
Qed.

(** X11. A DEVICE record with a path, a driver and a subtype, both texts,
    decodes: the identifier is the driver, a space and the subtype (the
    driver alone for an empty subtype), the bitmask is exactly online,
    device and device-id, the optional attributes take their values or their
    defaults (0, 0, '8N1', not-a-number twice), and the fix and the
    satellites are untouched. *)
Theorem device_identifier_joined (d : gmap string pyval) (p : pyval)
    (driver subtype : string) (s : gps) :
  d !! "path" = Some p -> d !! "driver" = Some (PStr driver) ->
  d !! "subtype" = Some (PStr subtype) ->
  exists s',
    shim_DEVICE d s = (Return tt, s')
    /\ path s' = Some p
    /\ gps_id s'
       = PStr (if String.eqb subtype "" then driver
               else String.append driver (String.append " " subtype))
    /\ valid s' = Z.lor (Z.lor ONLINE_SET DEVICE_SET) DEVICEID_SET
    /\ driver_mode s' = default (PInt 0) (d !! "native")
    /\ baudrate s' = default (PInt 0) (d !! "bps")
    /\ serialmode s' = Some (default (PStr "8N1") (d !! "serialmode"))
    /\ cycle s' = default NaN (d !! "cycle")
    /\ mincycle s' = default NaN (d !! "mincycle")
    /\ fix_ s' = fix_ s /\ satellites s' = satellites s.
Proof.
  intros Hp Hd Hs.
  assert (Hv : forall b, bit_if b 0 = 0) by (intros []; reflexivity).
  assert (Hk1 : has_key d "driver" = true) by (unfold has_key; rewrite Hd; reflexivity).
  assert (Hk2 : has_key d "subtype" = true) by (unfold has_key; rewrite Hs; reflexivity).
  assert (Hidem : forall a b, Z.lor (Z.lor a b) b = Z.lor a b).
  { intros a b. rewrite <- Z.lor_assoc, Z.lor_diag. reflexivity. }
  destruct (String.eqb subtype "") eqn:He.
  - eexists. split.
    { unfold shim_DEVICE, getitem.
      rewrite run_bind_modify, Hp, run_bind_some, run_bind_modify.
      do 4 shim_step. rewrite Hd, Hs. cbn [default from_option id truthy]. rewrite He. cbn [negb].
      repeat shim_step. reflexivity. }
    session_simpl. rewrite Hk1, Hk2, !Hv, !Z.lor_0_r. cbn [bit_if]. rewrite Hidem.
    repeat split.
  - eexists. split.
    { unfold shim_DEVICE, getitem.
      rewrite run_bind_modify, Hp, run_bind_some, run_bind_modify.
      do 4 shim_step. rewrite Hd, Hs. cbn [default from_option id truthy]. rewrite He. cbn [negb].
      shim_step. rewrite !run_bind_assoc, run_bind_gets. cbn [gps_id set_gps_id].
      unfold space_plus. rewrite run_bind_assoc, run_bind_ret. unfold iadd.
      rewrite run_bind_assoc, run_bind_ret.
      repeat shim_step. reflexivity. }
    session_simpl. rewrite Hk1, Hk2, !Hv, !Z.lor_0_r. cbn [bit_if]. rewrite Hidem.
    repeat split.
Qed.

(** ** A fix report that is too short *)






(** ** Streaming requests *)

Lemma land_within_zero (f m b : Z) :
  Z.land f (Z.lor m b) = 0 -> Z.land f b = 0.
Proof.
  intros H. apply Z.bits_inj'. intros n Hn. rewrite Z.bits_0, Z.land_spec.
  assert (Hb : Z.testbit (Z.land f (Z.lor m b)) n = false) by (rewrite H; apply Z.bits_0).
  rewrite Z.land_spec, Z.lor_spec in Hb.
  destruct (Z.testbit f n); [| reflexivity]. simpl in *.
  apply orb_false_elim in Hb. apply Hb.
Qed.

(** X13. A request with the old-style flag but without the raw-NMEA flag
    sends nothing, enabling or disabling: the command is built but the
    [send] sits inside the test for raw NMEA. *)
Theorem stream_oldstyle_needs_nmea (flags : Z) (devpath : pyval) :
  Z.land flags WATCH_OLDSTYLE <> 0 -> Z.land flags WATCH_NMEA = 0 ->
  stream flags devpath = NoRequest.
Proof.
  intros Hold Hnmea. unfold stream.
  destruct (Z.eqb_spec (Z.land flags
              (Z.lor WATCH_JSON (Z.lor WATCH_OLDSTYLE (Z.lor WATCH_NMEA WATCH_RAW)))) 0)
    as [H0 | _].
  { exfalso. apply Hold. apply land_within_zero in H0.
    rewrite Z.lor_comm in H0. apply land_within_zero in H0. exact H0. }
  cbv zeta. apply Z.eqb_neq in Hold. rewrite Hold, Hnmea. cbn.
  destruct (Z.land flags WATCH_DISABLE =? 0); reflexivity.
Qed.

(** X14. The only commands [stream] ever sends are ['w+r+'] and ['w-r-']:
    a bare ['w+'] or ['w-'] is never sent. *)
Theorem stream_commands (flags : Z) (devpath : pyval) (arg : string) :
  stream flags devpath = Send arg -> arg = "w+r+" \/ arg = "w-r-".
Proof.
  unfold stream. cbv zeta. intros H.
  repeat match type of H with
  | context [if ?b then _ else _] => destruct b
  end; try discriminate; injection H as <-; [right | left]; reflexivity.
Qed.

(** X15. Without the old-style flag (the JSON flag not overlapping it)
    every request goes to the JSON client, with the JSON flag added when no
    encoding was asked for; when disabling, the complemented flags are
    passed on. *)
Theorem stream_json_by_default (flags : Z) (devpath : pyval) :
  Z.land flags WATCH_OLDSTYLE = 0 -> Z.land WATCH_JSON WATCH_OLDSTYLE = 0 ->
  let asked :=
    if Z.land flags
         (Z.lor WATCH_JSON (Z.lor WATCH_OLDSTYLE (Z.lor WATCH_NMEA WATCH_RAW))) =? 0
    then Z.lor flags WATCH_JSON else flags in
  stream flags devpath
  = if Z.land asked WATCH_DISABLE =? 0 then JsonStream asked devpath
    else JsonStream (Z.lnot asked) devpath.
Proof.
  intros Hold Hjson asked. unfold stream. fold asked. cbv zeta.
  assert (Ha : Z.land asked WATCH_OLDSTYLE = 0).
  { unfold asked. destruct (_ =? 0); [| exact Hold].
    rewrite Z.land_lor_distr_l, Hold, Hjson. reflexivity. }
  rewrite Ha. cbn. destruct (Z.land asked WATCH_DISABLE =? 0); reflexivity.
Qed.

(** ** The loop over the fields of a legacy message *)

Lemma for_each_stops (A : Type) (body : A -> M unit) (pre : list A) (bad : A)
    (post : list A) (e : exn) (s s1 s2 : gps) :
  for_each pre body s = (Return tt, s1) -> body bad s1 = (Raise e, s2) ->
  for_each (pre ++ bad :: post) body s = (Raise e, s2).
Proof.
  revert s. induction pre as [| x pre IH]; intros s Hpre Hbad; simpl in *.
  - injection Hpre as ->. unfold bind. rewrite Hbad. reflexivity.
  - unfold bind in *. destruct (body x s) as [[[] | e0] s0]; [| discriminate].
    apply IH; assumption.
Qed.

(** X16. A legacy message is decoded field by field and the first field
    that raises ends the decode: the fields before it stay applied, the
    fields after it are not looked at, and [read] and [next] raise the same
    exception without setting the packet bit. *)
Theorem legacy_stops_at_first_raise (status : Z) (line : string)
    (pre : list string) (bad : string) (post : list string) (e : exn)
    (s s1 s2 : gps) :
  0 < status ->
  startswith "{" line && endswith (String.append "}" CRLF) line = false ->
  startswith "GPSD" line = true ->
  split_on "," (strip line) = "GPSD" :: pre ++ bad :: post ->
  for_each pre unpack_field
    (set_fix_ (set_time (PFloat 0) (fix_ s)) (set_response (Some line) s))
  = (Return tt, s1) ->
  unpack_field bad s1 = (Raise e, s2) ->
  read status (Some line) s = (Raise e, s2)
  /\ next status (Some line) s = (Raise e, s2).
Proof.
  intros Hst Hb Hg Hsplit Hpre Hbad.
  assert (Hread : read status (Some line) s = (Raise e, s2)).
  { unfold read. rewrite run_bind_modify.
    destruct (Z.leb_spec status 0) as [? | _]; [lia |].
    rewrite run_bind_gets. cbn [response set_response]. rewrite run_bind_some.
    rewrite Hb, Hg. unfold oldstyle_unpack, assign_fix. rewrite run_bind_assoc.
    rewrite run_bind_modify, Hsplit. cbn [String.eqb Ascii.eqb Bool.eqb].
    session_norm.
    rewrite (run_bind_raise _ _ _ _ _ (for_each_stops _ _ _ _ post _ _ _ _ Hpre Hbad)).
    reflexivity. }
  split; [exact Hread |]. unfold next.
  rewrite (run_bind_raise _ _ _ _ _ Hread). reflexivity.
Qed.

Lemma upper_idempotent (c : ascii) : upper (upper c) = upper c.
Proof. destruct c as [[] [] [] [] [] [] [] []]; reflexivity. Qed.

(** X17. The command letter of a legacy field is case-insensitive: a field
    decodes exactly as the field with its first character upper-cased. *)
Theorem legacy_command_case_insensitive (c : ascii) (rest : string) (s : gps) :
  unpack_field (String c rest) s = unpack_field (String (upper c) rest) s.
Proof.
  unfold unpack_field. cbn [String.eqb String.get drop_chars].
  destruct rest as [| c1 rest]; [reflexivity |].
  cbn [String.get drop_chars Nat.eqb]. rewrite !run_bind_some.
  destruct (negb (Ascii.eqb c1 "=")); [reflexivity |].
  rewrite !run_bind_some. rewrite upper_idempotent. reflexivity.
Qed.

(** The legacy decoder leaves the tokenized record where it is. *)
Lemma oldstyle_unpack_keeps_data (buf : string) (o : option (gmap string pyval)) :
  keeps (fun s => data s = o) (fun _ => True) (oldstyle_unpack buf).
Proof.
  unfold oldstyle_unpack. apply keeps_bind.
  - apply keeps_assign_fix. intros ? H. exact H.
  - intros _. destruct (split_on "," (strip buf)) as [| first rest].
    + apply keeps_raise. exact I.
    + destruct (String.eqb first "GPSD"); [| apply keeps_ret].
      apply keeps_for_each. intros field _.
      unfold unpack_field, unpack_Y, unpack_O, unpack_default, clear_valid,
        or_valid, assign_fix.
      repeat keeps_step;
        first [exact I | intros; exact I | intros ? Hkept; exact Hkept].
Qed.

(** X19. Once a structured record has been unpacked, [next] keeps
    returning it: for a line that is not brace-framed (a legacy line or an
    unrecognised one), whenever [next] returns, it returns the record
    unpacked earlier, and not the line just read. *)
Theorem next_after_legacy_line_returns_old_record (status : Z) (line : string)
    (d : gmap string pyval) (s : gps) :
  0 < status -> data s = Some d ->
  startswith "{" line && endswith (String.append "}" CRLF) line = false ->
  forall v s', next status (Some line) s = (Return v, s') ->
    v = PDict d /\ data s' = Some d.
Proof.
  intros Hst Hd Hb v s' Hnext. unfold next in Hnext.
  apply bind_return_inv in Hnext as (r & s1 & Hread & Hnext).
  assert (Hdata : data s1 = Some d).
  { unfold read in Hread. rewrite run_bind_modify in Hread.
    destruct (Z.leb_spec status 0) as [? | _]; [lia |].
    rewrite run_bind_gets in Hread. cbn [response set_response] in Hread.
    rewrite run_bind_some, Hb in Hread.
    destruct (startswith "GPSD" line).
    - apply bind_return_inv in Hread as ([] & s0 & Hun & Hread).
      destruct (oldstyle_unpack_keeps_data line (Some d)
                  (set_response (Some line) s) Hd) as [Hk _].
      rewrite Hun in Hk. cbn [snd] in Hk.
      unfold or_valid in Hread. rewrite run_bind_modify in Hread.
      injection Hread as _ <-. exact Hk.
    - injection Hread as _ <-. exact Hd. }
  destruct (r =? -1); [discriminate |].
  rewrite run_bind_gets, Hdata in Hnext. injection Hnext as <- <-.
  split; [reflexivity | exact Hdata].
Qed.

(** X20. The legacy decoder never writes the fix's [epy]: whatever the
    message, and whether the decode returns or raises, it is as before (the
    fix report assigns sub-field 6 to the fix's [epx] and to an attribute
    [epy] of the session). *)
Theorem legacy_leaves_fix_epy (buf : string) (s : gps) :
  epy (fix_ (snd (oldstyle_unpack buf s))) = epy (fix_ s).
Proof.
  assert (Hk : keeps (fun s0 => epy (fix_ s0) = epy (fix_ s)) (fun _ => True)
                 (oldstyle_unpack buf)).
  { unfold oldstyle_unpack. apply keeps_bind.
    - apply keeps_assign_fix. intros ? H. exact H.
    - intros _. destruct (split_on "," (strip buf)) as [| first rest].
      + apply keeps_raise. exact I.
      + destruct (String.eqb first "GPSD"); [| apply keeps_ret].
        apply keeps_for_each. intros field _.
        unfold unpack_field, unpack_Y, unpack_O, unpack_default, clear_valid,
          or_valid, assign_fix.
        repeat keeps_step;
          first [exact I | intros; exact I | intros ? Hkept; exact Hkept]. }
  apply Hk. reflexivity.
Qed.

(** ** The values of a fix report *)

Lemma has_bit_unfold (v vbit : Z) : negb (Z.land v vbit =? 0) = has_bit v vbit.
Proof. reflexivity. Qed.

(** After the group is cleared and the positional bits are ORed in, the
    altitude bit reads back as sub-field 5 decided it. *)
Lemma altitude_bit_rederived (v : Z)
    (b1 b2 b3 b4 b5 b6 b7 b8 b9 b10 b11 b12 b13 : bool) :
  negb
    (Z.land
       (Z.lor (Z.lor (Z.lor (Z.lor (Z.lor (Z.lor (Z.lor (Z.lor (Z.lor (Z.lor (Z.lor
         (Z.lor (Z.lor (Z.land v (Z.lnot O_MASK)) (bit_if b1 TIME_SET))
         (bit_if b2 TIMERR_SET)) (bit_if b3 LATLON_SET)) (bit_if b4 0))
         (bit_if b5 ALTITUDE_SET)) (bit_if b6 HERR_SET)) (bit_if b7 VERR_SET))
         (bit_if b8 TRACK_SET)) (bit_if b9 SPEED_SET)) (bit_if b10 CLIMB_SET))
         (bit_if b11 0)) (bit_if b12 SPEEDERR_SET)) (bit_if b13 CLIMBERR_SET))
       ALTITUDE_SET =? 0)
  = b5.
Proof.
  rewrite has_bit_unfold. unfold ALTITUDE_SET. rewrite has_bit_testbit by lia.
  rewrite !Z.lor_spec, Z.land_spec, Z.lnot_spec, !testbit_bit_if, Z.bits_0 by lia.
  eval_const_bits. bool_simpl. reflexivity.
Qed.

(** X21. A fix report of at least fourteen sub-fields that runs to its end
    stores, in each of the thirteen positional fix fields, the value of its
    sub-field or not-a-number, and sub-field 6 also in the session's own
    [epy]. The mode is sub-field 14 when there is one; when there is none it
    is inferred from the altitude bit: two-dimensional when sub-field 5
    supplied an altitude, three-dimensional when it did not. The UTC text is
    sub-field 1 as sent when the time is not-a-number, and the time printed
    by [isotime] otherwise. *)
Theorem fix_report_stores_fields (data : string) (s : gps) :
  let fields := split_ws data in
  (14 <= length fields)%nat ->
  fields !! 0%nat <> Some "?" ->
  (isnan (value_at cnv_float fields 1) = true
   \/ exists u, isotime (value_at cnv_float fields 1) = Return u) ->
  exists s',
    unpack_O data s = (Return tt, s')
    /\ (forall i field, (i, field) ∈ positional_fields ->
          field (fix_ s') = value_at cnv_float fields i)
    /\ self_epy s' = Some (value_at cnv_float fields 6)
    /\ mode (fix_ s')
       = (if (14 <? length fields)%nat then value_at cnv_int fields 14
          else PInt (if supplied cnv_float fields 5 then MODE_2D else MODE_3D))
    /\ (isnan (value_at cnv_float fields 1) = true ->
        Some (utc s') = PStr <$> fields !! 1%nat)
    /\ (isnan (value_at cnv_float fields 1) = false ->
        isotime (value_at cnv_float fields 1) = Return (utc s')).
Proof.
  intros fields Hlen H0 Htime. unfold unpack_O. fold fields. clearbody fields.
  destruct fields as [| w0 fields]; [simpl in Hlen; lia |].
  do 13 (destruct fields as [| ? fields]; [simpl in Hlen; lia |]).
  destruct (String.eqb_spec w0 "?") as [-> | Hw0]; [contradiction H0; reflexivity |].
  apply String.eqb_neq in Hw0.
  unfold clear_valid, assign_fix, or_valid.
  assert (Hmode : forall (c : bool) (a b : Z),
             (if c then modify (fun s1 => set_fix_ (set_mode (PInt a) (fix_ s1)) s1)
              else modify (fun s1 => set_fix_ (set_mode (PInt b) (fix_ s1)) s1))
             = modify (fun s1 =>
                 set_fix_ (set_mode (PInt (if c then a else b)) (fix_ s1)) s1))
    by (intros [] ? ?; reflexivity).
  assert (Hu : isnan (value_at cnv_float
                        (w0 :: s0 :: s1 :: s2 :: s3 :: s4 :: s5 :: s6 :: s7 :: s8 :: s9
                            :: s10 :: s11 :: s12 :: fields) 1) = false ->
               exists u, isotime (value_at cnv_float
                        (w0 :: s0 :: s1 :: s2 :: s3 :: s4 :: s5 :: s6 :: s7 :: s8 :: s9
                            :: s10 :: s11 :: s12 :: fields) 1) = Return u).
  { intros Hn. destruct Htime as [Ht | Ht]; [congruence | exact Ht]. }
  clear Htime.
  destruct (isnan (value_at cnv_float _ 1)) eqn:Hn;
    [clear Hu | destruct (Hu eq_refl) as [u Hiso]; clear Hu];
    (destruct fields as [| w14 rest]);
    (eexists; split;
     [ run_step; rewrite Hw0; repeat run_step; rewrite Hn;
       try rewrite run_bind_assoc; repeat run_step;
       cbn [length Nat.ltb Nat.leb]; repeat run_step; rewrite ?Hmode; repeat run_step;
       reflexivity
     | session_simpl ]).
  all: split;
    [ unfold positional_fields; intros i field Hin;
      repeat (apply elem_of_cons in Hin as [[= -> ->] | Hin]); try reflexivity;
      apply elem_of_nil in Hin; contradiction |].
  all: split; [reflexivity |].
  all: cbn [length Nat.ltb Nat.leb].
  all: split; [| split; first [intros _; reflexivity | intros _; exact Hiso | discriminate]].
  all: try reflexivity.
  all: rewrite altitude_bit_rederived; reflexivity.
Qed.

(** ** A sky report with a malformed satellite *)

Lemma append_satellite_run (item : pyval) (sat : satellite) (s : gps) :
  satellite_of item = Some sat ->
  append_satellite item s = (Return tt, set_satellites (satellites s ++ [sat]) s).
Proof.
  unfold satellite_of, append_satellite, subscript, getitem.
  destruct item as [| | | | | | m]; try discriminate.
  destruct (m !! "PRN") as [p |]; [| discriminate].
  destruct (m !! "el") as [e |]; [| discriminate].
  destruct (m !! "az") as [a |]; [| discriminate].
  destruct (m !! "ss") as [q |]; [| discriminate].
  destruct (m !! "used") as [u |]; [| discriminate].
  intros [= <-]. reflexivity.
Qed.

Lemma append_satellite_raises (item : pyval) (s : gps) :
  satellite_of item = None ->
  exists e, append_satellite item s = (Raise e, s) /\ (e = KeyError \/ e = TypeError).
Proof.
  unfold satellite_of, append_satellite, subscript, getitem.
  destruct item as [| | | | | | m];
    try (intros _; exists TypeError; split; [reflexivity | right; reflexivity]).
  intros H. exists KeyError. split; [| left; reflexivity].
  destruct (m !! "PRN") as [p |]; [| reflexivity].
  destruct (m !! "el") as [e |]; [| reflexivity].
  destruct (m !! "az") as [a |]; [| reflexivity].
  destruct (m !! "ss") as [q |]; [| reflexivity].
  destruct (m !! "used") as [u |]; [discriminate | reflexivity].
Qed.

Lemma append_satellites_run (good : list pyval) (s : gps) :
  Forall (fun item => is_Some (satellite_of item)) good ->
  for_each good append_satellite s
  = (Return tt, set_satellites (satellites s ++ omap satellite_of good) s).
Proof.
  revert s. induction good as [| item good IH]; intros s Hgood.
  - simpl. rewrite app_nil_r. destruct s. reflexivity.
  - apply Forall_cons in Hgood as [[sat Hsat] Hgood].
    cbn [for_each omap list_omap]. rewrite Hsat.
    rewrite (run_bind_return _ _ _ _ _ (append_satellite_run _ _ s Hsat)).
    rewrite IH by exact Hgood. cbn [satellites set_satellites].
    rewrite <- app_assoc. reflexivity.
Qed.

(** The loop over the dilution-of-precision keys leaves the count of used
    satellites and the satellite bit alone. *)
Lemma sky_dops_keep_count (d : gmap string pyval) (n : Z) (b : bool) :
  keeps (fun s => satellites_used s = n /\ Z.testbit (valid s) 15 = b)
    (fun _ => False)
    (for_each ["x"; "y"; "v"; "h"; "p"; "g"] (fun attrp =>
       v <- shim_default d (String.append attrp "dop") NaN DOP_SET ;;
       modify (setattr (String.append attrp "dop") v))).
Proof.
  apply keeps_for_each. intros attrp _. unfold shim_default.
  repeat keeps_step;
    try (intros ? Hkept; unfold setattr; repeat case_match; exact Hkept).
  intros ? [Hn Hb]. split; [exact Hn |]. cbn [valid set_valid].
  rewrite Z.lor_spec, Hb. unfold DOP_SET. eval_const_bits. apply orb_false_r.
Qed.

(** X22. Unlike the legacy list, the satellite list of a SKY record is
    rebuilt in place: when an item of the array is not a mapping with the
    five per-satellite keys, the decode raises ([KeyError], or [TypeError]
    for an item that is no mapping) and the session is left with the
    satellites built from the items before it; the satellites-used count is
    not recounted and the satellite bit is as before. *)
Theorem sky_list_partial_on_malformed (d : gmap string pyval)
    (good : list pyval) (bad : pyval) (rest : list pyval) (s : gps) :
  d !! "satellites" = Some (PList (good ++ bad :: rest)) ->
  Forall (fun item => is_Some (satellite_of item)) good ->
  satellite_of bad = None ->
  exists e s',
    shim_SKY d s = (Raise e, s')
    /\ (e = KeyError \/ e = TypeError)
    /\ satellites s' = omap satellite_of good
    /\ length (satellites s') = length good
    /\ satellites_used s' = satellites_used s
    /\ has_bit (valid s') SATELLITE_SET = has_bit (valid s) SATELLITE_SET.
Proof.
  intros Hd Hgood Hbad.
  destruct (sky_dops_keep_count d (satellites_used s) (Z.testbit (valid s) 15) s
              (conj eq_refl eq_refl)) as [[Hn Hb] Hex].
  unfold shim_SKY.
  destruct (for_each _ _ s) as [[[] | e0] s1] eqn:Hdops;
    [| exfalso; apply (Hex e0); reflexivity].
  cbn [snd] in Hn, Hb. clear Hex.
  destruct (append_satellite_raises bad
              (set_satellites (omap satellite_of good) (set_satellites [] s1)) Hbad)
    as (e & Hraise & He).
  exists e, (set_satellites (omap satellite_of good) (set_satellites [] s1)).
  split.
  { rewrite (run_bind_return _ _ _ _ _ Hdops), Hd.
    rewrite !run_bind_assoc, run_bind_modify. unfold iterate.
    rewrite run_bind_assoc, run_bind_ret.
    rewrite (run_bind_raise _ _ _ _ _
               (for_each_stops _ _ _ _ rest _ _ _ _
                  (append_satellites_run good _ Hgood) Hraise)).
    reflexivity. }
  split; [exact He |]. cbn [satellites set_satellites satellites_used valid].
  split; [reflexivity |].
  split.
  { clear -Hgood. induction Hgood as [| item good [sat Hsat] _ IH]; [reflexivity |].
    cbn [omap list_omap]. rewrite Hsat. simpl. f_equal. exact IH. }
  split; [exact Hn |].
  unfold SATELLITE_SET. rewrite !has_bit_testbit by lia. exact Hb.
Qed.

(** ** Redelivery of a TPV record *)

(** Sessions built by updates, written out field by field. *)
Ltac session_cbv :=
  cbv [mode time ept latitude longitude epx epy altitude epv track speed climb epd eps epc
       online valid fix_ status utc satellites_used xdop ydop vdop tdop pdop hdop gdop epe
       satellites gps_id driver_mode baudrate stopbits cycle mincycle device devices
       version newstyle self_epy path activated serialmode data response set_mode set_time
       set_ept set_latitude set_longitude set_epx set_epy set_altitude set_epv set_track
       set_speed set_climb set_epd set_eps set_epc set_online set_valid set_fix_ set_utc
       set_satellites_used set_xdop set_ydop set_vdop set_pdop set_hdop set_gdop
       set_satellites set_gps_id set_driver_mode set_baudrate set_cycle set_mincycle
       set_device set_version set_newstyle set_self_epy set_path set_activated
       set_serialmode set_data set_response modify].

(** X23. A TPV record whose time is absent, or is a float arriving while
    the fix time is a float, always decodes, and delivering it a second
    time changes nothing: the session after two deliveries is the session
    after one. *)
Theorem tpv_redelivery_idempotent (d : gmap string pyval) (s : gps) :
  d !! "time" = None
  \/ (exists f, d !! "time" = Some (PFloat f)) /\ is_float (time (fix_ s)) = true ->
  fst (shim_TPV d s) = Return tt
  /\ shim_TPV d (snd (shim_TPV d s)) = shim_TPV d s.
Proof.
  intros [Ht | [[f Ht] Hf]].
  - evar (F : gps -> gps).
    assert (H : forall s0, shim_TPV d s0 = (Return tt, F s0)).
    { intros s0. unfold shim_TPV, assign_fix. do 2 shim_step. rewrite Ht.
      cbn [default]. repeat shim_step. unfold F. reflexivity. }
    rewrite (H s). cbn [fst snd]. rewrite (H (F s)).
    split; [reflexivity |]. unfold F. session_cbv. reflexivity.
  - evar (F : gps -> gps).
    assert (H : forall s0, is_float (time (fix_ s0)) = true ->
                           shim_TPV d s0 = (Return tt, F s0)).
    { intros s0 H0. unfold shim_TPV, assign_fix. do 2 shim_step. rewrite Ht.
      cbn [default from_option id]. shim_step.
      rewrite run_bind_assoc, run_bind_gets. cbn [time fix_ set_utc set_valid].
      rewrite H0. repeat shim_step. unfold F. reflexivity. }
    rewrite (H s Hf). cbn [fst snd].
    assert (Hf' : is_float (time (fix_ (F s))) = true) by (unfold F; reflexivity).
    rewrite (H (F s) Hf').
    split; [reflexivity |]. unfold F. session_cbv. reflexivity.
Qed.

(** ** The default rule, decoder by decoder *)














(** ** The constructor's request *)

(** What [stream] does, by the old-style and the raw-NMEA flag. *)
Lemma stream_by_flags (flags : Z) (devpath : pyval) :
  Z.land WATCH_JSON WATCH_OLDSTYLE = 0 ->
  match Z.land flags WATCH_OLDSTYLE =? 0, Z.land flags WATCH_NMEA =? 0 with
  | true, _ => exists asked, stream flags devpath = JsonStream asked devpath
  | false, true => stream flags devpath = NoRequest
  | false, false => exists arg, stream flags devpath = Send arg
  end.
Proof.
  intros Hjson. unfold stream.
  destruct (Z.eqb_spec (Z.land flags
              (Z.lor WATCH_JSON (Z.lor WATCH_OLDSTYLE (Z.lor WATCH_NMEA WATCH_RAW)))) 0)
    as [H0 | _]; cbv zeta.
  - assert (Hold : Z.land flags WATCH_OLDSTYLE = 0).
    { apply land_within_zero in H0. rewrite Z.lor_comm in H0.
      apply land_within_zero in H0. exact H0. }
    rewrite (Z.land_lor_distr_l flags WATCH_JSON WATCH_OLDSTYLE), Hold, Hjson. cbn.
    destruct (_ =? 0); cbn; eexists; reflexivity.
  - destruct (Z.land flags WATCH_OLDSTYLE =? 0), (Z.land flags WATCH_NMEA =? 0); cbn;
      destruct (_ =? 0); cbn; first [reflexivity | eexists; reflexivity].
Qed.

(** X24. The constructor makes no request when the mode is 0. For any
    other mode it sends a command itself exactly when the mode carries both
    the old-style and the raw-NMEA flag, hands the request to the JSON
    client exactly when the old-style flag is clear, and does neither when
    the old-style flag is set without the raw-NMEA flag (the JSON flag not
    overlapping the old-style one). Whatever the mode, the session it
    builds has no validity bit set and is not marked as structured. *)
Theorem constructor_request_by_mode (mode : Z) :
  Z.land WATCH_JSON WATCH_OLDSTYLE = 0 ->
  valid (fst (gps_new mode)) = 0
  /\ newstyle (fst (gps_new mode)) = false
  /\ (snd (gps_new mode) = None <-> mode = 0)
  /\ ((exists arg, snd (gps_new mode) = Some (Send arg))
      <-> mode <> 0 /\ Z.land mode WATCH_OLDSTYLE <> 0 /\ Z.land mode WATCH_NMEA <> 0)
  /\ ((exists asked devpath, snd (gps_new mode) = Some (JsonStream asked devpath))
      <-> mode <> 0 /\ Z.land mode WATCH_OLDSTYLE = 0)
  /\ (snd (gps_new mode) = Some NoRequest
      <-> mode <> 0 /\ Z.land mode WATCH_OLDSTYLE <> 0 /\ Z.land mode WATCH_NMEA = 0).
Proof.
  intros Hjson. split; [reflexivity |]. split; [reflexivity |].
  unfold gps_new. cbn [snd].
  destruct (Z.eqb_spec mode 0) as [-> | Hne]; cbn [negb].
  { split; [split; reflexivity |].
    split; [| split].
    - split; [intros [? [=]] | intros [Hc _]; contradiction Hc; reflexivity].
    - split; [intros (? & ? & [=]) | intros [Hc _]; contradiction Hc; reflexivity].
    - split; [discriminate | intros [Hc _]; contradiction Hc; reflexivity]. }
  split; [split; [discriminate | intros ->; contradiction Hne; reflexivity] |].
  pose proof (stream_by_flags mode PNone Hjson) as Hs.
  destruct (Z.eqb_spec (Z.land mode WATCH_OLDSTYLE) 0) as [Ho | Ho];
    [| destruct (Z.eqb_spec (Z.land mode WATCH_NMEA) 0) as [Hn | Hn]].
  - destruct Hs as [asked ->]. split; [| split].
    + split; [intros [? [=]] | intros (_ & H & _); contradiction].
    + split; [intros _; split; assumption | intros _; eexists _, _; reflexivity].
    + split; [discriminate | intros (_ & H & _); contradiction].
  - rewrite Hs. split; [| split].
    + split; [intros [? [=]] | intros (_ & _ & H'); contradiction].
    + split; [intros (? & ? & [=]) | intros [_ H']; contradiction].
    + split; [intros _; repeat split; assumption | reflexivity].
  - destruct Hs as [arg ->]. split; [| split].
    + split; [intros _; repeat split; assumption | intros _; eexists; reflexivity].
    + split; [intros (? & ? & [=]) | intros [_ H']; contradiction].
    + split; [discriminate | intros (_ & _ & H'); contradiction].
Qed.

End Decoder.

(** ** The decoders on sample messages *)

(** C8, as the code has it. The fields of a legacy message are separated by
    commas, so the blocks of a satellite list are separated from the count by
    a colon and hold whitespace-separated integers: the field
    ['Y=2:1 10 80 40 1:2 20 150 35 0'] replaces the satellite sequence by
    exactly two records, PRN 1 with a true [used] and PRN 2 with a false
    one, and sets the satellite bit; a structured SKY record carrying the
    equivalent array then recomputes the satellites-used count to 1. *)
Theorem satellite_blocks_by_whitespace (py_float : string -> option float)
    (isotime : pyval -> outcome pyval) (s : gps) :
  let r := oldstyle_unpack py_float decimal_int isotime
             "GPSD,Y=2:1 10 80 40 1:2 20 150 35 0" s in
  let r' := oldstyle_shim isotime (set_data (Some sky_two) (snd r)) in
  fst r = Return tt
  /\ satellites (snd r)
     = [ {| PRN := PInt 1; elevation := PInt 10; azimuth := PInt 80; ss := PInt 40;
            used := PInt 1 |};
         {| PRN := PInt 2; elevation := PInt 20; azimuth := PInt 150; ss := PInt 35;
            used := PInt 0 |} ]
  /\ map truthy (map used (satellites (snd r))) = [true; false]
  /\ has_bit (valid (snd r)) SATELLITE_SET = true
  /\ fst r' = Return tt
  /\ map PRN (satellites (snd r')) = [PInt 1; PInt 2]
  /\ map used (satellites (snd r')) = [PBool true; PBool false]
  /\ satellites_used (snd r') = 1.
Proof.
  cbv zeta. repeat split.
  assert (Hv : valid (snd (oldstyle_unpack py_float decimal_int isotime
                        "GPSD,Y=2:1 10 80 40 1:2 20 150 35 0" s))
               = Z.lor (valid s) SATELLITE_SET) by reflexivity.
  rewrite Hv. unfold SATELLITE_SET. rewrite has_bit_testbit, Z.lor_spec by lia.
  apply orb_true_r.
Qed.

(** C8, as stated, fails: the message with comma-separated blocks is split
    at its commas first, the field ['Y=2 1'] announces one satellite and
    holds none, and the decode raises [IndexError] with the satellite
    sequence left as it was. *)
Lemma satellite_blocks_by_comma_raise :
  let r := oldstyle_unpack decimal_float decimal_int sample_isotime
             "GPSD,Y=2 1,10,80,200,40,1:2,20,150,90,35,0" gps_init in
  fst r = Raise IndexError
  /\ satellites (snd r) = []
  /\ length (satellites (snd r)) <> 2%nat
  /\ has_bit (valid (snd r)) SATELLITE_SET = false
  /\ split_on "," "GPSD,Y=2 1,10,80,200,40,1:2,20,150,90,35,0"
     = ["GPSD"; "Y=2 1"; "10"; "80"; "200"; "40"; "1:2"; "20"; "150"; "90"; "35"; "0"].
Proof. vm_compute. repeat split; discriminate. Qed.

(** C1, as stated, fails for the mode bit: a fix report of fourteen
    sub-fields has no sub-field 14, yet the mode bit is set after it. *)
Lemma fix_report_mode_bit_without_subfield :
  let data := "RMC ? ? ? ? ? ? ? ? ? ? ? ? ?" in
  let r := oldstyle_unpack decimal_float decimal_int sample_isotime
             (String.append "GPSD,O=" data) gps_init in
  fst r = Return tt
  /\ split_ws data !! 14%nat = None
  /\ supplied (cnv_int decimal_int) (split_ws data) 14 = false
  /\ has_bit (valid (snd r)) MODE_SET = true.
Proof. vm_compute. repeat split. Qed.

(** The hypotheses of [fix_report_rederives_bits] hold of a report of
    fifteen sub-fields, and its bits come out as supplied. *)
Lemma fix_report_rederives_bits_witness :
  let buf := String.append "GPSD,O=" fix_report_data in
  let fields := split_ws fix_report_data in
  (14 <= length fields)%nat
  /\ fields !! 0%nat <> Some "?"
  /\ exists s',
       oldstyle_unpack decimal_float decimal_int sample_isotime buf gps_init
       = (Return tt, s')
       /\ has_bit (valid s') LATLON_SET = true
       /\ has_bit (valid s') ALTITUDE_SET = false
       /\ has_bit (valid s') SPEED_SET = false
       /\ has_bit (valid s') MODE_SET = true.
Proof.
  cbv zeta.
  split; [vm_compute; lia |]. split; [discriminate |].
  destruct (fix_report_rederives_bits decimal_float decimal_int sample_isotime
              (String.append "GPSD,O=" fix_report_data) "O" fix_report_data gps_init)
    as (s' & Hrun & _ & _ & Hpos & _ & Hmode).
  - reflexivity.
  - reflexivity.
  - discriminate.
  - vm_compute. lia.
  - discriminate.
  - right. eexists. reflexivity.
  - exists s'. split; [exact Hrun |].
    rewrite (Hpos 3%nat LATLON_SET), (Hpos 5%nat ALTITUDE_SET), (Hpos 9%nat SPEED_SET), Hmode
      by (unfold positional_bits; set_solver).
    vm_compute. repeat split.
Defined.

(** The hypothesis of [legacy_without_fix_report_time_zero] holds of a
    message with an online-status and a device-path field. *)
Lemma legacy_without_fix_report_time_zero_witness :
  let buf := "GPSD,X=1,F=/dev/ttyS0" in
  let s := set_fix_ (set_time (PFloat 1272628100.5) gpsfix_init) gps_init in
  let s' := snd (oldstyle_unpack decimal_float decimal_int sample_isotime buf s) in
  Forall (fun field => command_of field <> Some "O"%char)
         (tail (split_on "," (strip buf)))
  /\ time (fix_ s) = PFloat 1272628100.5
  /\ time (fix_ s') = PFloat 0
  /\ has_bit (valid s') TIME_SET = false.
Proof.
  cbv zeta.
  assert (H : Forall (fun field => command_of field <> Some "O"%char)
                (tail (split_on "," (strip "GPSD,X=1,F=/dev/ttyS0")))).
  { repeat constructor; discriminate. }
  split; [exact H |]. split; [reflexivity |].
  destruct (legacy_without_fix_report_time_zero decimal_float decimal_int sample_isotime
              "GPSD,X=1,F=/dev/ttyS0"
              (set_fix_ (set_time (PFloat 1272628100.5) gpsfix_init) gps_init) H)
    as (_ & Ht & _ & _ & Hb).
  split; [exact Ht | apply Hb; reflexivity].
Defined.

(** The hypotheses of [device_record_needs_path] hold of a device record
    that carries its path. *)
Lemma device_record_needs_path_witness :
  let line := framed "class:DEVICE,path:/dev/ttyUSB0,driver:SiRF binary" in
  let r := next decimal_float decimal_int sample_isotime (tokenized device_usb) 1
             (Some line) gps_init in
  class_is device_usb "DEVICE" = true
  /\ path (snd r) = Some (PStr "/dev/ttyUSB0")
  /\ fst r <> Raise KeyError
  /\ fst r <> Raise StopIteration.
Proof.
  cbv zeta. split; [reflexivity |].
  pose proof (device_record_needs_path decimal_float decimal_int sample_isotime
                (tokenized device_usb) 1
                (framed "class:DEVICE,path:/dev/ttyUSB0,driver:SiRF binary")
                device_usb gps_init eq_refl eq_refl eq_refl eq_refl eq_refl) as H.
  cbv zeta in H. change (device_usb !! "path") with (Some (PStr "/dev/ttyUSB0")) in H.
  destruct H as ((Hp & Hk) & Hs & _).
  repeat split; assumption.
Defined.

(** C2, as stated, fails: after a legacy 'Y' message has set the satellite
    bit, a structured TPV record decodes and leaves the satellite bit
    cleared. *)
Lemma tpv_after_satellites_clears_satellite_bit :
  let deliver := read decimal_float decimal_int sample_isotime (tokenized tpv_lat_lon) in
  let r1 := deliver 37 (Some (String.append "GPSD,Y=2:1 10 80 40 1:2 20 150 35 0" CRLF))
              gps_init in
  let r2 := deliver 39 (Some (framed "class:TPV,lat:10.5,lon:20.25")) (snd r1) in
  fst r1 = Return 0
  /\ has_bit (valid (snd r1)) SATELLITE_SET = true
  /\ fst r2 = Return 0
  /\ latitude (fix_ (snd r2)) = PFloat 10.5
  /\ has_bit (valid (snd r2)) SATELLITE_SET = false.
Proof. vm_compute. repeat split. Qed.

(** [cross_format_bits] at a session that has just read a satellite list. *)
Lemma cross_format_bits_witness :
  let s := snd (read decimal_float decimal_int sample_isotime (tokenized tpv_lat_lon) 37
                  (Some (String.append "GPSD,Y=2:1 10 80 40 1:2 20 150 35 0" CRLF))
                  gps_init) in
  let s' := snd (read decimal_float decimal_int sample_isotime (tokenized tpv_lat_lon) 39
                   (Some (framed "class:TPV,lat:10.5,lon:20.25")) s) in
  class_is tpv_lat_lon "TPV" = true
  /\ has_bit (valid s) SATELLITE_SET = true
  /\ has_bit (valid s') SATELLITE_SET = false
  /\ has_bit (valid s') ONLINE_SET = true.
Proof.
  cbv zeta. split; [reflexivity |]. split; [reflexivity |].
  apply (proj2 (cross_format_bits decimal_float decimal_int sample_isotime
                  (tokenized tpv_lat_lon) _) 39
               (framed "class:TPV,lat:10.5,lon:20.25") tpv_lat_lon);
    reflexivity.
Defined.

(** C5. Re-delivering one structured TPV record whose time is a text does
    not leave the session as the first delivery left it: the first delivery
    stores the text as the fix time (the stored time was a float), the second
    finds a stored time that is no float and stores the epoch [isotime]
    gives, so the two sessions differ. *)
Theorem tpv_redelivery_drifts (py_float : string -> option float)
    (py_int : string -> option Z) (epoch : float) (text : string) :
  let deliver := read py_float py_int (fixed_isotime epoch text)
                   (tokenized tpv_text_time) 48
                   (Some (framed "class:TPV,time:2010-04-30T11:48:20.10Z")) in
  let s1 := snd (deliver gps_init) in
  let s2 := snd (deliver s1) in
  fst (deliver gps_init) = Return 0
  /\ fst (deliver s1) = Return 0
  /\ time (fix_ s1) = PStr "2010-04-30T11:48:20.10Z"
  /\ time (fix_ s2) = PFloat epoch
  /\ s1 <> s2.
Proof.
  cbv zeta. repeat split.
  intros H. apply (f_equal (fun s => time (fix_ s))) in H. vm_compute in H. discriminate.
Qed.

(** ** The further properties on sample inputs *)

Lemma read_unrecognised_witness :
  let line := String.append "$GPGGA,123519,4807.038,N" CRLF in
  let r := read decimal_float decimal_int sample_isotime (tokenized tpv_lat_lon) 26
             (Some line) gps_init in
  startswith "GPSD" line = false
  /\ fst r = Return 0
  /\ valid (snd r) = 0
  /\ response (snd r) = Some line.
Proof.
  cbv zeta. split; [reflexivity |].
  rewrite (read_unrecognised decimal_float decimal_int sample_isotime
             (tokenized tpv_lat_lon) 26 _ gps_init) by reflexivity.
  repeat split.
Defined.

Lemma read_without_data_witness :
  fst (next decimal_float decimal_int sample_isotime (tokenized tpv_lat_lon) (-1) None
         gps_init) = Raise StopIteration
  /\ fst (next decimal_float decimal_int sample_isotime (tokenized tpv_lat_lon) 0
            (Some "GPSD") gps_init) <> Raise StopIteration.
Proof.
  split.
  - apply (proj2 (read_without_data decimal_float decimal_int sample_isotime
                    (tokenized tpv_lat_lon) (-1) None gps_init ltac:(lia))).
    reflexivity.
  - intros H.
    apply (proj2 (read_without_data decimal_float decimal_int sample_isotime
                    (tokenized tpv_lat_lon) 0 (Some "GPSD") gps_init ltac:(lia))) in H.
    discriminate.
Defined.

Lemma read_sentinel_prefix_only_witness :
  let line := String.append "GPSD2,X=1" CRLF in
  let r := read decimal_float decimal_int sample_isotime (tokenized tpv_lat_lon) 11
             (Some line) gps_init in
  split_on "," (strip line) = ["GPSD2"; "X=1"]
  /\ fst r = Return 0
  /\ has_bit (valid (snd r)) PACKET_SET = true
  /\ has_bit (valid (snd r)) ONLINE_SET = false
  /\ time (fix_ (snd r)) = PFloat 0.
Proof.
  cbv zeta. split; [reflexivity |].
  rewrite (read_sentinel_prefix_only decimal_float decimal_int sample_isotime
             (tokenized tpv_lat_lon) 11 _ "GPSD2" ["X=1"] gps_init)
    by (reflexivity || lia || discriminate).
  repeat split.
Defined.

Lemma version_record_stored_witness :
  let d := record [("class", PStr "VERSION"); ("release", PStr "2.95")] in
  let r := read decimal_float decimal_int sample_isotime (tokenized d) 40
             (Some (framed "class:VERSION,release:2.95")) gps_init in
  class_is d "VERSION" = true
  /\ fst r = Return 0
  /\ version (snd r) = PDict d
  /\ newstyle (snd r) = true.
Proof.
  cbv zeta. split; [reflexivity |].
  rewrite (version_record_stored decimal_float decimal_int sample_isotime
             (tokenized (record [("class", PStr "VERSION"); ("release", PStr "2.95")]))
             40 _ (record [("class", PStr "VERSION"); ("release", PStr "2.95")]) gps_init)
    by reflexivity.
  repeat split.
Defined.

Lemma unknown_record_ignored_witness :
  let d := record [("class", PStr "WATCH"); ("enable", PBool true)] in
  let r := read decimal_float decimal_int sample_isotime (tokenized d) 40
             (Some (framed "class:WATCH,enable:true")) gps_init in
  class_is d "SKY" = false
  /\ fst r = Return 0
  /\ fix_ (snd r) = gpsfix_init
  /\ version (snd r) = PNone
  /\ newstyle (snd r) = true.
Proof.
  cbv zeta. split; [reflexivity |].
  rewrite (unknown_record_ignored decimal_float decimal_int sample_isotime
             (tokenized (record [("class", PStr "WATCH"); ("enable", PBool true)]))
             40 _ (record [("class", PStr "WATCH"); ("enable", PBool true)]) gps_init)
    by reflexivity.
  repeat split.
Defined.

Lemma sky_report_recounts_witness :
  let r := shim_SKY sky_two gps_init in
  fst r = Return tt
  /\ satellites_used (snd r) = 1
  /\ valid (snd r) = Z.lor ONLINE_SET SATELLITE_SET.
Proof.
  cbv zeta. split; [vm_compute; reflexivity |].
  assert (Hrun : shim_SKY sky_two gps_init
                 = (Return tt, snd (shim_SKY sky_two gps_init)))
    by (vm_compute; reflexivity).
  destruct (proj1 (sky_report_recounts sky_two gps_init) _ Hrun) as [Hc Hv].
  split; [| exact Hv]. rewrite Hc. vm_compute. reflexivity.
Defined.

Lemma tpv_without_time_decodes_witness :
  exists s',
    shim_TPV sample_isotime tpv_lat_lon gps_init = (Return tt, s')
    /\ has_bit (valid s') LATLON_SET = true
    /\ has_bit (valid s') TIME_SET = false
    /\ utc s' = PNone
    /\ mode (fix_ s') = PInt 0
    /\ altitude (fix_ s') = NaN.
Proof.
  destruct (tpv_without_time_decodes sample_isotime tpv_lat_lon gps_init eq_refl)
    as (s' & Hrun & _ & Hbit & Htime & Hutc & _ & Hmode & Hfield).
  exists s'. split; [exact Hrun |].
  split; [apply (Hbit "lat"); [unfold tpv_keys; set_solver | reflexivity] |].
  split; [exact Htime |]. split; [exact Hutc |]. split; [exact Hmode |].
  apply (Hfield "alt" altitude). unfold tpv_fields. set_solver.
Defined.

Lemma device_subtype_needs_driver_witness :
  let d := record [("class", PStr "DEVICE"); ("path", PStr "/dev/ttyUSB0");
                   ("subtype", PStr "GSW3.2.4")] in
  d !! "driver" = None
  /\ exists s', shim_DEVICE d gps_init = (Raise TypeError, s') /\ gps_id s' = PNone.
Proof.
  cbv zeta. split; [reflexivity |].
  destruct (device_subtype_needs_driver
              (record [("class", PStr "DEVICE"); ("path", PStr "/dev/ttyUSB0");
                       ("subtype", PStr "GSW3.2.4")])
              (PStr "/dev/ttyUSB0") "GSW3.2.4" gps_init)
    as (s' & Hrun & _ & Hid & _); [reflexivity | reflexivity | reflexivity | discriminate |].
  exists s'. split; assumption.
Defined.

Lemma device_identifier_joined_witness :
  let d := record [("class", PStr "DEVICE"); ("path", PStr "/dev/ttyUSB0");
                   ("driver", PStr "SiRF binary"); ("subtype", PStr "GSW3.2.4");
                   ("bps", PInt 4800)] in
  exists s',
    shim_DEVICE d gps_init = (Return tt, s')
    /\ gps_id s' = PStr "SiRF binary GSW3.2.4"
    /\ baudrate s' = PInt 4800
    /\ serialmode s' = Some (PStr "8N1").
Proof.
  cbv zeta.
  destruct (device_identifier_joined
              (record [("class", PStr "DEVICE"); ("path", PStr "/dev/ttyUSB0");
                       ("driver", PStr "SiRF binary"); ("subtype", PStr "GSW3.2.4");
                       ("bps", PInt 4800)])
              (PStr "/dev/ttyUSB0") "SiRF binary" "GSW3.2.4" gps_init)
    as (s' & Hrun & _ & Hid & _ & _ & Hbps & Hser & _);
    [reflexivity | reflexivity | reflexivity |].
  exists s'. repeat split; assumption.
Defined.


Lemma stream_oldstyle_needs_nmea_witness :
  Z.land WATCH_OLDSTYLE WATCH_OLDSTYLE <> 0
  /\ stream 0x10 0x20 0x80 0x02 WATCH_OLDSTYLE PNone = NoRequest
  /\ stream 0x10 0x20 0x80 0x02 (Z.lor WATCH_OLDSTYLE 0x02) PNone = NoRequest.
Proof.
  split; [discriminate |]. split.
  - apply (stream_oldstyle_needs_nmea 0x10 0x20 0x80 0x02); [discriminate | reflexivity].
  - apply (stream_oldstyle_needs_nmea 0x10 0x20 0x80 0x02); [discriminate | reflexivity].
Defined.

Lemma stream_commands_witness :
  stream 0x10 0x20 0x80 0x02 (Z.lor WATCH_OLDSTYLE 0x20) PNone = Send "w+r+".
Proof.
  assert (H : stream 0x10 0x20 0x80 0x02 (Z.lor WATCH_OLDSTYLE 0x20) PNone = Send "w+r+")
    by reflexivity.
  destruct (stream_commands 0x10 0x20 0x80 0x02 _ _ _ H) as [_ | Hbad];
    [exact H | discriminate Hbad].
Defined.

Lemma stream_json_by_default_witness :
  stream 0x10 0x20 0x80 0x02 0 (PStr "/dev/ttyUSB0")
  = JsonStream 0x10 (PStr "/dev/ttyUSB0")
  /\ stream 0x10 0x20 0x80 0x02 0x02 PNone = JsonStream (Z.lnot 0x12) PNone.
Proof.
  split.
  - rewrite (stream_json_by_default 0x10 0x20 0x80 0x02) by reflexivity. reflexivity.
  - rewrite (stream_json_by_default 0x10 0x20 0x80 0x02) by reflexivity. reflexivity.
Defined.

Lemma legacy_stops_at_first_raise_witness :
  let line := String.append "GPSD,F=/dev/ttyS0,X,I=SiRF" CRLF in
  let r := read decimal_float decimal_int sample_isotime (tokenized tpv_lat_lon) 28
             (Some line) gps_init in
  fst r = Raise IndexError
  /\ device (snd r) = PStr "/dev/ttyS0"
  /\ gps_id (snd r) = PNone
  /\ has_bit (valid (snd r)) PACKET_SET = false.
Proof.
  cbv zeta.
  rewrite (proj1 (legacy_stops_at_first_raise decimal_float decimal_int sample_isotime
             (tokenized tpv_lat_lon) 28 (String.append "GPSD,F=/dev/ttyS0,X,I=SiRF" CRLF)
             ["F=/dev/ttyS0"] "X" ["I=SiRF"] IndexError gps_init _ _
             ltac:(lia) eq_refl eq_refl eq_refl eq_refl eq_refl)).
  repeat split.
Defined.

Lemma next_after_legacy_line_returns_old_record_witness :
  let s := set_data (Some tpv_lat_lon) gps_init in
  let line := String.append "GPSD,X=1" CRLF in
  fst (next decimal_float decimal_int sample_isotime (tokenized tpv_lat_lon) 10
         (Some line) s) = Return (PDict tpv_lat_lon).
Proof.
  cbv zeta.
  destruct (next decimal_float decimal_int sample_isotime (tokenized tpv_lat_lon) 10
              (Some (String.append "GPSD,X=1" CRLF))
              (set_data (Some tpv_lat_lon) gps_init)) as [[v | e] s'] eqn:Hnext.
  - destruct (next_after_legacy_line_returns_old_record decimal_float decimal_int
                sample_isotime (tokenized tpv_lat_lon) 10
                (String.append "GPSD,X=1" CRLF) tpv_lat_lon
                (set_data (Some tpv_lat_lon) gps_init)
                ltac:(lia) eq_refl eq_refl v s' Hnext) as [-> _].
    reflexivity.
  - vm_compute in Hnext. discriminate Hnext.
Defined.
Lemma fix_report_stores_fields_witness :
  let data := "RMC 1272628100.5 0.005 10.5 20.25 ? 2.5 ? 1.0 abc ? ? ? ?" in
  length (split_ws data) = 14%nat
  /\ exists s',
       unpack_O decimal_float decimal_int sample_isotime data gps_init = (Return tt, s')
       /\ mode (fix_ s') = PInt MODE_3D
       /\ utc s' = PStr "2010-04-30T11:48:20.50"
       /\ isnan (altitude (fix_ s')) = true
       /\ self_epy s' = Some (epx (fix_ s')).
Proof.
  cbv zeta. split; [reflexivity |].
  destruct (fix_report_stores_fields decimal_float decimal_int sample_isotime
              "RMC 1272628100.5 0.005 10.5 20.25 ? 2.5 ? 1.0 abc ? ? ? ?" gps_init)
    as (s' & Hrun & Hfields & Hepy & Hmode & _ & Hutc).
  - vm_compute. lia.
  - discriminate.
  - right. eexists. reflexivity.
  - exists s'. split; [exact Hrun |].
    split; [rewrite Hmode; reflexivity |].
    split.
    { specialize (Hutc eq_refl).
      match type of Hutc with
      | ?l = _ =>
          assert (Hiso : l = Return (PStr "2010-04-30T11:48:20.50")) by reflexivity
      end.
      rewrite Hiso in Hutc. injection Hutc as <-. reflexivity. }
    split.
    { rewrite (Hfields 5%nat altitude)
        by (unfold positional_fields;
            repeat first [left | right]).
      reflexivity. }
    rewrite Hepy, (Hfields 6%nat epx)
      by (unfold positional_fields;
          repeat first [left | right]).
    reflexivity.
Defined.

Lemma sky_list_partial_on_malformed_witness :
  let d := record [("class", PStr "SKY");
                   ("satellites",
                    PList [sat_record 1 10 80 40 true;
                           PDict (record [("PRN", PInt 2); ("el", PInt 20)]);
                           sat_record 3 30 200 28 true])] in
  exists e s',
    shim_SKY d (set_satellites_used 7 gps_init) = (Raise e, s')
    /\ length (satellites s') = 1%nat
    /\ satellites_used s' = 7
    /\ has_bit (valid s') SATELLITE_SET = false.
Proof.
  cbv zeta.
  destruct (sky_list_partial_on_malformed
              (record [("class", PStr "SKY");
                       ("satellites",
                        PList [sat_record 1 10 80 40 true;
                               PDict (record [("PRN", PInt 2); ("el", PInt 20)]);
                               sat_record 3 30 200 28 true])])
              [sat_record 1 10 80 40 true]
              (PDict (record [("PRN", PInt 2); ("el", PInt 20)]))
              [sat_record 3 30 200 28 true]
              (set_satellites_used 7 gps_init))
    as (e & s' & Hrun & _ & _ & Hlen & Hused & Hbit).
  - reflexivity.
  - constructor; [eexists; reflexivity | constructor].
  - reflexivity.
  - exists e, s'. split; [exact Hrun |]. split; [exact Hlen |].
    split; [exact Hused |]. rewrite Hbit. reflexivity.
Defined.

Lemma tpv_redelivery_idempotent_witness :
  let d := record [("class", PStr "TPV"); ("time", PFloat 1272628100.5);
                   ("lat", PFloat 10.5)] in
  let once := shim_TPV sample_isotime d gps_init in
  fst once = Return tt
  /\ shim_TPV sample_isotime d (snd once) = once.
Proof.
  cbv zeta.
  apply (tpv_redelivery_idempotent sample_isotime
           (record [("class", PStr "TPV"); ("time", PFloat 1272628100.5);
                    ("lat", PFloat 10.5)]) gps_init).
  right. split; [eexists; reflexivity | reflexivity].
Defined.



Lemma constructor_request_by_mode_witness :
  snd (gps_new 0x10 0x20 0x80 0x02 (Z.lor WATCH_OLDSTYLE 0x20)) = Some (Send "w+r+")
  /\ snd (gps_new 0x10 0x20 0x80 0x02 WATCH_OLDSTYLE) = Some NoRequest
  /\ snd (gps_new 0x10 0x20 0x80 0x02 WATCH_NEWSTYLE)
     = Some (JsonStream (Z.lor WATCH_NEWSTYLE 0x10) PNone)
  /\ snd (gps_new 0x10 0x20 0x80 0x02 0) = None.
Proof.
  destruct (constructor_request_by_mode 0x10 0x20 0x80 0x02 WATCH_OLDSTYLE eq_refl)
    as (_ & _ & _ & _ & _ & Hnone).
  split; [reflexivity |].
  split; [apply Hnone; repeat split; discriminate |].
  split; reflexivity.
Defined.
